(** * ts_hexrotcomm: the mock controller engine

    A shallow embedding of [BaseMockController]
    (python/lsst/ts/hexrotcomm/base_mock_controller.py): the controller state
    machine, the command dispatcher, the frame headers, the telemetry loop and
    the bookkeeping of the telemetry task, followed by the properties of the
    specification that concern them.

    Python objects are mutable and methods may raise: every method is a
    function from the controller to an outcome and the controller it leaves
    behind (mutations made before a [raise] stay). *)

From Stdlib Require Import ZArith QArith Qround String Lia.
From stdpp Require Import gmap strings list pretty.

Local Open Scope Z_scope.

(** ** Exceptions and the state-and-exception monad *)

(** [CommandError] is the class of the source; [Exception] stands for any
    other subclass of Python's [Exception], carried with its [str(e)];
    [CancelledError] is asyncio's, which is a [BaseException] and so is not
    caught by [except Exception]. *)
Inductive exn : Type :=
| CommandError (msg : string)
| Exception (msg : string)
| CancelledError.

Inductive outcome (A : Type) : Type :=
| Return (a : A)
| Raise (e : exn).
Arguments Return {A} a.
Arguments Raise {A} e.

Definition M (S A : Type) : Type := S -> outcome A * S.

Definition ret {S A} (a : A) : M S A := fun s => (Return a, s).

Definition raise {S A} (e : exn) : M S A := fun s => (Raise e, s).

Definition bind {S A B} (m : M S A) (k : A -> M S B) : M S B :=
  fun s => match m s with
           | (Return a, s') => k a s'
           | (Raise e, s') => (Raise e, s')
           end.

Definition gets {S A} (f : S -> A) : M S A := fun s => (Return (f s), s).

Definition modify {S} (f : S -> S) : M S unit := fun s => (Return tt, f s).

(** A value computed without touching the state, or the exception it raised. *)
Definition lift_outcome {S A} (o : outcome A) : M S A := fun s => (o, s).

Notation "'let*' x ':=' m 'in' k" := (bind m (fun x => k))
  (at level 10, x pattern, m at level 100, k at level 200).
Notation "m ';;' k" := (bind m (fun _ => k))
  (at level 100, k at level 200, right associativity).

(** ** Enumerations *)

(** Modelled from the spec: [ControllerState] is declared in
    lsst.ts.xml.enums.MTHexapod; section 3 of the specification lists its
    members STANDBY, ENABLED and FAULT, the ones the source names. *)
Module ControllerState.
Inductive t : Type := STANDBY | ENABLED | FAULT.
#[global] Instance eq_dec : EqDecision t.
Proof. solve_decision. Defined.
End ControllerState.

(** Modelled from the spec: [enums.FrameId] (enums.py); section 6 gives the
    frame kinds CONFIG, TELEMETRY and COMMAND_STATUS. *)
Module FrameId.
Inductive t : Type := COMMAND_STATUS | TELEMETRY | CONFIG.
#[global] Instance eq_dec : EqDecision t.
Proof. solve_decision. Defined.
End FrameId.

(** Modelled from the spec: [enums.CommandStatusCode] (enums.py). *)
Module CommandStatusCode.
Inductive t : Type := ACK | NO_ACK.
#[global] Instance eq_dec : EqDecision t.
Proof. solve_decision. Defined.
End CommandStatusCode.

(** ** What the source imports and does not declare

    The numeric type of the command parameters (structs.py) with Python's
    [int], [bool] and [str] on it; the value of [EnabledSubstate.STATIONARY]
    and the [repr] of states and substates, as telemetry fields and as
    enumeration members (lsst.ts.xml); the values of [enums.SetStateParam];
    [structs.COMMAND_STATUS_REASON_LEN], the length of a character array,
    taken positive; and the data of the device beyond the fields the engine
    itself uses. *)
Class Externals : Type := {
  Param : Type;
  py_int : Param -> outcome Z;
  py_bool : Param -> bool;
  py_str : Param -> string;
  STATIONARY : Z;
  repr_state_field : ControllerState.t -> string;
  repr_ControllerState : ControllerState.t -> string;
  repr_substate_field : Z -> string;
  repr_EnabledSubstate : Z -> string;
  SetStateParam_ENABLE : Z;
  SetStateParam_STANDBY : Z;
  SetStateParam_CLEAR_ERROR : Z;
  COMMAND_STATUS_REASON_LEN : nat;
  COMMAND_STATUS_REASON_LEN_pos : (0 < COMMAND_STATUS_REASON_LEN)%nat;
  Dev : Type
}.

(** ** Records *)

Module Header.
Record t : Type := mk {
    frame_id : FrameId.t;
    tai_sec : Z;
    tai_nsec : Z;
    counter : Z
  }.
End Header.

Module Command.
Record t `{Externals} : Type := mk {
    code : Z;
    counter : Z;
    param1 : Param;
    param2 : Param;
    param3 : Param;
    param4 : Param;
    param5 : Param;
    param6 : Param
  }.
Arguments mk {_}.
End Command.

Module CommandStatus.
Record t : Type := mk {
    status : CommandStatusCode.t;
    duration : Q;
    reason : string
  }.
End CommandStatus.

Module Telemetry.
Record t : Type := mk {
    state : ControllerState.t;
    enabled_substate : Z
  }.
End Telemetry.

Module Config.
Record t : Type := mk {
    drives_enabled : bool
  }.
End Config.

(** What a frame carries after its header. *)
Inductive Payload : Type :=
| ConfigData (c : Config.t)
| TelemetryData (t : Telemetry.t)
| CommandStatusData (s : CommandStatus.t).

Record Frame : Type := mkFrame {
  frame_header : Header.t;
  frame_payload : Payload
}.

(** The part of the controller that device code (extra commands and the two
    abstract hooks) reads and writes. *)
Record Plant `{Externals} : Type := mkPlant {
  telemetry : Telemetry.t;
  config : Config.t;
  device : Dev
}.
Arguments mkPlant {_}.

(** asyncio futures, as far as [cancel] and [done] tell them apart. *)
Inductive FutureState : Type := Pending | Cancelled | Done.

#[global] Instance FutureState_eq_dec : EqDecision FutureState.
Proof. solve_decision. Defined.

(** The bound methods stored in [command_table]: the four of the base class,
    or a method of the device. *)
Module Method.
Inductive t `{Externals} : Type :=
| do_enable
| do_standby
| do_clear_error
| do_enable_drives
| extra (f : Command.t -> M Plant (option Q)).
Arguments do_enable {_}.
Arguments do_standby {_}.
Arguments do_clear_error {_}.
Arguments do_enable_drives {_}.
Arguments extra {_}.
End Method.

(** What [get_command_key] returns: the bare code, or the tuple
    [(code, int(param1))]. A Python int never equals a tuple. *)
Inductive CommandKey : Type :=
| KeyCode (code : Z)
| KeyPair (code : Z) (param1 : Z).

#[global] Instance CommandKey_eq_dec : EqDecision CommandKey.
Proof. solve_decision. Defined.

#[global] Instance CommandKey_countable : Countable CommandKey.
Proof.
  refine (inj_countable'
    (fun k => match k with KeyCode c => inl c | KeyPair c p => inr (c, p) end)
    (fun x => match x with inl c => KeyCode c | inr (c, p) => KeyPair c p end) _).
  intros []; reflexivity.
Defined.

(** The constructor arguments [CommandCode] (an IntEnum class: the three
    members the engine names, its further members and its name) and
    [extra_commands], and the two abstract methods. *)
Class Device `{Externals} : Type := {
  CommandCode_SET_STATE : Z;
  CommandCode_SET_ENABLED_SUBSTATE : Z;
  CommandCode_ENABLE_DRIVES : Z;
  CommandCode_others : list Z;
  CommandCode_name : string;
  extra_commands : gmap CommandKey Method.t;
  end_run_command : Command.t -> Method.t -> M Plant unit;
  update_telemetry : Q -> M Plant unit
}.

Inductive LogRecord `{Externals} : Type :=
| DebugRunCommand (command : Command.t)
| DebugSetState (state : ControllerState.t) (enabled_substate : Z)
| LogInfo (msg : string)
| LogException (msg : string) (e : exn).
Arguments DebugRunCommand {_}.
Arguments DebugSetState {_}.
Arguments LogInfo {_}.
Arguments LogException {_}.

(** The controller object. [headers] is keyed by every member of [FrameId]
    and never resized after [__init__]: a total table. [connected] is the
    property of the tcpip server; [wire] the frames handed to [write_from],
    oldest first; [clock] the successive readings of [utils.current_tai];
    [futures] the futures created so far and [telemetry_loop_task] the index
    of the one the attribute refers to. *)
Record Mock `{Externals} : Type := mkMock {
  plant : Plant;
  headers : FrameId.t -> Header.t;
  connected : bool;
  wire : list Frame;
  log : list LogRecord;
  clock : nat -> Q;
  clock_reads : nat;
  futures : list FutureState;
  telemetry_loop_task : nat
}.
Arguments mkMock {_}.

Section Engine.
Context `{Dv : Device}.

(** *** Field updates *)

Definition set_plant (p : Plant) (c : Mock) : Mock :=
  mkMock p (headers c) (connected c) (wire c) (log c) (clock c)
         (clock_reads c) (futures c) (telemetry_loop_task c).

Definition set_headers (h : FrameId.t -> Header.t) (c : Mock) : Mock :=
  mkMock (plant c) h (connected c) (wire c) (log c) (clock c)
         (clock_reads c) (futures c) (telemetry_loop_task c).

Definition set_connected (b : bool) (c : Mock) : Mock :=
  mkMock (plant c) (headers c) b (wire c) (log c) (clock c)
         (clock_reads c) (futures c) (telemetry_loop_task c).

Definition set_wire (w : list Frame) (c : Mock) : Mock :=
  mkMock (plant c) (headers c) (connected c) w (log c) (clock c)
         (clock_reads c) (futures c) (telemetry_loop_task c).

Definition set_log (l : list LogRecord) (c : Mock) : Mock :=
  mkMock (plant c) (headers c) (connected c) (wire c) l (clock c)
         (clock_reads c) (futures c) (telemetry_loop_task c).

Definition set_clock_reads (n : nat) (c : Mock) : Mock :=
  mkMock (plant c) (headers c) (connected c) (wire c) (log c) (clock c)
         n (futures c) (telemetry_loop_task c).

Definition set_futures (f : list FutureState) (c : Mock) : Mock :=
  mkMock (plant c) (headers c) (connected c) (wire c) (log c) (clock c)
         (clock_reads c) f (telemetry_loop_task c).

Definition set_telemetry_loop_task (i : nat) (c : Mock) : Mock :=
  mkMock (plant c) (headers c) (connected c) (wire c) (log c) (clock c)
         (clock_reads c) (futures c) i.

Definition set_telemetry (t : Telemetry.t) (c : Mock) : Mock :=
  set_plant (mkPlant t (config (plant c)) (device (plant c))) c.

Definition set_config (g : Config.t) (c : Mock) : Mock :=
  set_plant (mkPlant (telemetry (plant c)) g (device (plant c))) c.

(** [self.log.<level>(...)]. *)
Definition log_record (r : LogRecord) : M Mock unit :=
  modify (fun c => set_log (log c ++ [r]) c).

(** Device code runs on the plant; the rest of the controller is untouched. *)
Definition lift_plant {A} (m : M Plant A) : M Mock A :=
  fun c => let (o, p) := m (plant c) in (o, set_plant p c).

(** *** Properties [state] and [enabled_substate] *)

Definition state (c : Mock) : ControllerState.t :=
  Telemetry.state (telemetry (plant c)).

Definition enabled_substate (c : Mock) : Z :=
  Telemetry.enabled_substate (telemetry (plant c)).

(** *** The transport (lsst.ts.tcpip)

    [write_from(header, payload)] sends the header object and the payload as
    they are at the time of the call; a header is referred to by its key in
    [headers], the object is shared. It raises ConnectionError when no client
    is connected, as the docstrings of [write_config] and
    [write_command_status] say. *)
Definition write_from (header : FrameId.t) (payload : Mock -> Payload)
  : M Mock unit :=
  fun c =>
    if connected c
    then (Return tt, set_wire (wire c ++ [mkFrame (headers c header) (payload c)]) c)
    else (Raise (Exception "Not connected"), c).

(** *** The clock and the headers *)

Definition current_tai : M Mock Q :=
  fun c => (Return (clock c (clock_reads c)), set_clock_reads (S (clock_reads c)) c).

(** Python's [int] on a number: truncation towards zero. *)
Definition int_of_Q (x : Q) : Z := Z.quot (Qnum x) (Z.pos (Qden x)).

(** [math.modf]: the fractional and the integer part, both with the sign of
    the argument. *)
Definition modf (x : Q) : Q * Q :=
  let i := inject_Z (int_of_Q x) in ((x - i)%Q, i).

Definition stamp (tai_sec tai_nsec : Z) (h : Header.t) : Header.t :=
  Header.mk (Header.frame_id h) tai_sec tai_nsec (Header.counter h).

Definition update_header (frame_id : FrameId.t) (f : Header.t -> Header.t)
  (c : Mock) : Mock :=
  set_headers (fun k => if decide (k = frame_id) then f (headers c k)
                        else headers c k) c.

Definition update_and_get_header (frame_id : FrameId.t)
  : M Mock (FrameId.t * Q) :=
  let header := frame_id in
  let* curr_tai := current_tai in
  let '(tai_frac, tai_sec) := modf curr_tai in
  modify (update_header header
            (stamp (int_of_Q tai_sec) (int_of_Q (tai_frac * 1000000000)%Q))) ;;
  ret (header, curr_tai).

Definition write_config : M Mock unit :=
  let* r := update_and_get_header FrameId.CONFIG in
  let (header, curr_tai) := (r : FrameId.t * Q) in
  write_from header (fun c => ConfigData (config (plant c))).

(** [reason.encode()[0:n]]: a string is held as its UTF-8 bytes. *)
Definition truncate (n : nat) (s : string) : string := String.substring 0 n s.

Definition write_command_status (counter : Z) (status : CommandStatusCode.t)
  (duration : option Q) (reason : string) : M Mock unit :=
  let duration := match duration with None => 0%Q | Some d => d end in
  let* r := update_and_get_header FrameId.COMMAND_STATUS in
  let (header, curr_tai) := (r : FrameId.t * Q) in
  modify (update_header header
            (fun h => Header.mk (Header.frame_id h) (Header.tai_sec h)
                                (Header.tai_nsec h) counter)) ;;
  let command_status :=
    CommandStatus.mk status duration (truncate COMMAND_STATUS_REASON_LEN reason) in
  write_from header (fun _ => CommandStatusData command_status).

(** *** The state machine *)

(** [set_state]: the state is stored, the substate is computed from the
    stored state, and both are logged at debug level. The conversions to
    [EnabledSubstate] in the log message are applied to the two values the
    method itself has just stored. *)
Definition set_state (new_state : ControllerState.t) : M Mock unit :=
  modify (fun c => set_telemetry (Telemetry.mk new_state (enabled_substate c)) c) ;;
  modify (fun c => set_telemetry
            (Telemetry.mk (state c)
               (if decide (state c = ControllerState.ENABLED)
                then STATIONARY else 0)) c) ;;
  let* s := gets state in
  let* e := gets enabled_substate in
  log_record (DebugSetState s e).

Definition assert_state (required : ControllerState.t)
  (required_substate : option Z) : M Mock unit :=
  let* s := gets state in
  if decide (s <> required)
  then raise (CommandError
         ("state=" +:+ repr_state_field s +:+ "; must be "
          +:+ repr_ControllerState required +:+ " for this command."))
  else
    let* e := gets enabled_substate in
    match required_substate with
    | Some r =>
        if decide (e <> r)
        then raise (CommandError
               ("enabled_substate=" +:+ repr_substate_field e +:+ "; must be "
                +:+ repr_EnabledSubstate r +:+ " for this command."))
        else ret tt
    | None => ret tt
    end.

Definition assert_stationary : M Mock unit :=
  assert_state ControllerState.ENABLED (Some STATIONARY).

(** *** The built-in command methods; each returns None *)

Definition do_enable_drives (command : Command.t) : M Mock (option Q) :=
  modify (set_config (Config.mk (py_bool (Command.param1 command)))) ;;
  write_config ;;
  ret None.

Definition do_enable (command : Command.t) : M Mock (option Q) :=
  assert_state ControllerState.STANDBY None ;;
  set_state ControllerState.ENABLED ;;
  ret None.

Definition do_standby (command : Command.t) : M Mock (option Q) :=
  assert_state ControllerState.ENABLED None ;;
  set_state ControllerState.STANDBY ;;
  ret None.

Definition do_clear_error (command : Command.t) : M Mock (option Q) :=
  let* s := gets state in
  if decide (s <> ControllerState.FAULT /\ s <> ControllerState.STANDBY)
  then raise (CommandError
         ("state=" +:+ repr_state_field s
          +:+ "; must be FAULT or STANDBY for this command."))
  else set_state ControllerState.STANDBY ;; ret None.

(** *** The dispatcher *)

(** The dict literal of [__init__], later entries replacing earlier ones with
    the same key, then [command_table.update(extra_commands)]. *)
Definition command_table : gmap CommandKey Method.t :=
  extra_commands ∪
  <[KeyCode CommandCode_ENABLE_DRIVES := Method.do_enable_drives]>
  (<[KeyPair CommandCode_SET_STATE SetStateParam_CLEAR_ERROR := Method.do_clear_error]>
  (<[KeyPair CommandCode_SET_STATE SetStateParam_STANDBY := Method.do_standby]>
  (<[KeyPair CommandCode_SET_STATE SetStateParam_ENABLE := Method.do_enable]> ∅))).

Definition CommandCode_members : list Z :=
  CommandCode_SET_STATE :: CommandCode_SET_ENABLED_SUBSTATE
  :: CommandCode_ENABLE_DRIVES :: CommandCode_others.

(** [self.CommandCode(value)]: the member with that value, or ValueError. *)
Definition CommandCode (value : Z) : outcome Z :=
  if decide (value ∈ CommandCode_members) then Return value
  else Raise (Exception (pretty value +:+ " is not a valid " +:+ CommandCode_name)).

Definition get_command_key (command : Command.t) : outcome CommandKey :=
  if decide (Command.code command
             ∈ [CommandCode_SET_STATE; CommandCode_SET_ENABLED_SUBSTATE])
  then match py_int (Command.param1 command) with
       | Return n => Return (KeyPair (Command.code command) n)
       | Raise e => Raise e
       end
  else Return (KeyCode (Command.code command)).

(** [await cmd_method(command)]. *)
Definition call (cmd_method : Method.t) (command : Command.t)
  : M Mock (option Q) :=
  match cmd_method with
  | Method.do_enable => do_enable command
  | Method.do_standby => do_standby command
  | Method.do_clear_error => do_clear_error command
  | Method.do_enable_drives => do_enable_drives command
  | Method.extra f => lift_plant (f command)
  end.

(** [run_command]. The debug message is an f-string: it is built before
    [log.debug] is called, and building it converts the code to
    [CommandCode]. *)
Definition run_command (command : Command.t) : M Mock (option Q) :=
  let* _ := lift_outcome (CommandCode (Command.code command)) in
  log_record (DebugRunCommand command) ;;
  let* key := lift_outcome (get_command_key command) in
  match command_table !! key with
  | None =>
      raise (CommandError
        ("Unrecognized command code " +:+ pretty (Command.code command)
         +:+ "; param1=" +:+ py_str (Command.param1 command) +:+ "..."))
  | Some cmd_method =>
      let* duration := call cmd_method command in
      lift_plant (end_run_command command cmd_method) ;;
      ret duration
  end.

(** [read_and_dispatch], from the point where [read_into] has filled in
    [command]. *)
Definition read_and_dispatch (command : Command.t) : M Mock unit :=
  fun c =>
    match run_command command c with
    | (Raise (CommandError msg), c') =>
        write_command_status (Command.counter command)
          CommandStatusCode.NO_ACK (Some 0%Q) msg c'
    | (Raise (Exception msg), c') =>
        (log_record (LogException
           "Command failed (without raising CommandError)" (Exception msg)) ;;
         write_command_status (Command.counter command)
           CommandStatusCode.NO_ACK (Some 0%Q) msg) c'
    | (Raise CancelledError, c') => (Raise CancelledError, c')
    | (Return duration, c') =>
        let duration := match duration with None => 0%Q | Some d => d end in
        write_command_status (Command.counter command)
          CommandStatusCode.ACK (Some duration) "" c'
    end.

(** The read loop of the tcpip server: [read_and_dispatch] for each command
    the client sends, until one raises. *)
Fixpoint read_loop (commands : list Command.t) : M Mock unit :=
  match commands with
  | [] => ret tt
  | command :: rest => read_and_dispatch command ;; read_loop rest
  end.

(** *** The telemetry task *)

(** [utils.make_done_future()] and [asyncio.create_task(...)]: a new future,
    done or pending; the result is its index. *)
Definition new_future (s : FutureState) : M Mock nat :=
  fun c => (Return (length (futures c)), set_futures (futures c ++ [s]) c).

(** [future.cancel()]: a pending future is cancelled, a finished one is left
    as it is. *)
Definition cancel_state (s : FutureState) : FutureState :=
  match s with Pending => Cancelled | _ => s end.

Definition cancel (i : nat) : M Mock unit :=
  modify (fun c => set_futures (alter cancel_state i (futures c)) c).

Definition connect_callback : M Mock unit :=
  let* task := gets telemetry_loop_task in
  cancel task ;;
  let* conn := gets connected in
  if (conn : bool)
  then let* task' := new_future Pending in
       modify (set_telemetry_loop_task task')
  else ret tt.

(** The server of lsst.ts.tcpip calls [connect_callback] when its connection
    state changes (docstring of [connect_callback]). *)
Definition tcpip_set_connected (b : bool) : M Mock unit :=
  let* conn := gets connected in
  if decide (conn = b) then ret tt
  else modify (set_connected b) ;; connect_callback.

Definition close_client : M Mock unit :=
  let* task := gets telemetry_loop_task in
  cancel task ;;
  tcpip_set_connected false.

(** What one [asyncio.sleep] of the telemetry loop meets: nothing, the loss
    of the client, or the cancellation of the task. *)
Inductive Wake : Type := Tick | Hangup | Cancel.

Definition asyncio_sleep (w : Wake) : M Mock unit :=
  match w with
  | Tick => ret tt
  | Hangup => modify (set_connected false)
  | Cancel => raise CancelledError
  end.

(** The body of the [while] loop up to its sleep. *)
Definition telemetry_tick : M Mock unit :=
  let* r := update_and_get_header FrameId.TELEMETRY in
  let (header, curr_tai) := (r : FrameId.t * Q) in
  lift_plant (update_telemetry curr_tai) ;;
  write_from header (fun c => TelemetryData (telemetry (plant c))).

(** [while self.connected: ...], one [Wake] per sleep. [None] is a loop still
    asleep when the schedule ends. *)
Fixpoint telemetry_while (schedule : list Wake) (c : Mock)
  : option (outcome unit) * Mock :=
  if connected c then
    match telemetry_tick c with
    | (Raise e, c') => (Some (Raise e), c')
    | (Return _, c') =>
        match schedule with
        | [] => (None, c')
        | w :: rest =>
            match asyncio_sleep w c' with
            | (Raise e, c'') => (Some (Raise e), c'')
            | (Return _, c'') => telemetry_while rest c''
            end
        end
    end
  else (Some (Return tt), c).

Definition telemetry_try (schedule : list Wake) (c : Mock)
  : option (outcome unit) * Mock :=
  match (if connected c then write_config c else (Return tt, c)) with
  | (Raise e, c') => (Some (Raise e), c')
  | (Return _, c') =>
      match telemetry_while schedule c' with
      | (Some (Return _), c'') =>
          (Some (Return tt), snd (log_record (LogInfo "Socket disconnected") c''))
      | r => r
      end
  end.

Definition telemetry_loop (schedule : list Wake) (c : Mock)
  : option (outcome unit) * Mock :=
  let c0 := snd (log_record (LogInfo "telemetry_loop begins") c) in
  match telemetry_try schedule c0 with
  | (Some (Raise CancelledError), c') => (Some (Raise CancelledError), c')
  | (Some (Raise e), c') =>
      (Some (Return tt), snd (log_record (LogException "telemetry_loop failed" e) c'))
  | r => r
  end.

(** *** Construction *)

(** [__init__]: the headers, one per frame kind; the server, not connected;
    [set_state(initial_state)]; the telemetry task, a future that is done. *)
Definition init (config0 : Config.t) (telemetry0 : Telemetry.t) (device0 : Dev)
  (initial_state : ControllerState.t) (clock0 : nat -> Q) : Mock :=
  let c := mkMock (mkPlant telemetry0 config0 device0)
             (fun frame_id => Header.mk frame_id 0 0 0)
             false [] [] clock0 0%nat [] 0%nat in
  snd ((set_state initial_state ;;
        let* task := new_future Done in
        modify (set_telemetry_loop_task task)) c).

(** A client connects: the server becomes connected and tells the engine;
    the read loop then serves the commands of that client. *)
Definition client_connects : M Mock unit := tcpip_set_connected true.

End Engine.

(** ** A concrete device

    Whole-number command parameters, [STATIONARY = 0], the state-transition
    parameters 2, 3 and 6, reasons of 50 bytes; a device with the command
    codes 1 to 3 for the engine and four commands of its own: code 4 takes
    1.5 s, code 10 reports a negative duration, code 11 fails with an empty
    message and code 12 is cancelled while it runs. The hooks do nothing. *)
Module Probe.

Definition repr_field (s : ControllerState.t) : string :=
  match s with
  | ControllerState.STANDBY => "0.0"
  | ControllerState.ENABLED => "1.0"
  | ControllerState.FAULT => "2.0"
  end.

Definition repr_member (s : ControllerState.t) : string :=
  match s with
  | ControllerState.STANDBY => "<ControllerState.STANDBY: 0>"
  | ControllerState.ENABLED => "<ControllerState.ENABLED: 1>"
  | ControllerState.FAULT => "<ControllerState.FAULT: 2>"
  end.

Definition reason_len_pos : (0 < 50)%nat := Nat.lt_0_succ 49.

#[global] Instance externals : Externals := {|
  Param := Z;
  py_int := fun z => Return z;
  py_bool := fun z => negb (z =? 0);
  py_str := fun z => pretty z +:+ ".0";
  STATIONARY := 0;
  repr_state_field := repr_field;
  repr_ControllerState := repr_member;
  repr_substate_field := fun z => pretty z +:+ ".0";
  repr_EnabledSubstate := fun z => pretty z;
  SetStateParam_ENABLE := 2;
  SetStateParam_STANDBY := 3;
  SetStateParam_CLEAR_ERROR := 6;
  COMMAND_STATUS_REASON_LEN := 50;
  COMMAND_STATUS_REASON_LEN_pos := reason_len_pos;
  Dev := unit
|}.

Definition do_move (command : Command.t) : M Plant (option Q) :=
  ret (Some (3 # 2)%Q).

Definition do_rewind (command : Command.t) : M Plant (option Q) :=
  ret (Some (-1 # 1)%Q).

Definition do_mute (command : Command.t) : M Plant (option Q) :=
  raise (CommandError "").

Definition do_stall (command : Command.t) : M Plant (option Q) :=
  raise CancelledError.

#[global] Instance device : Device := {|
  CommandCode_SET_STATE := 1;
  CommandCode_SET_ENABLED_SUBSTATE := 2;
  CommandCode_ENABLE_DRIVES := 3;
  CommandCode_others := [4; 10; 11; 12];
  CommandCode_name := "ProbeCommandCode";
  extra_commands :=
    <[KeyCode 4 := Method.extra do_move]>
    (<[KeyCode 10 := Method.extra do_rewind]>
    (<[KeyCode 11 := Method.extra do_mute]>
    (<[KeyCode 12 := Method.extra do_stall]> ∅)));
  end_run_command := fun _ _ => ret tt;
  update_telemetry := fun _ => ret tt
|}.

Definition command (code counter param1 : Z) : Command.t :=
  Command.mk code counter param1 0 0 0 0 0.

(** A controller constructed in [initial_state], its clock reading 1000.25 s
    and advancing by 0.1 s. *)
Definition fresh (initial_state : ControllerState.t) : Mock :=
  init (Config.mk false) (Telemetry.mk ControllerState.STANDBY 0) tt
       initial_state
       (fun n => (100025 # 100) + inject_Z (Z.of_nat n) * (1 # 10))%Q.

(** The same controller with a client connected. *)
Definition online (initial_state : ControllerState.t) : Mock :=
  snd (client_connects (fresh initial_state)).

End Probe.

(** ** A second device

    Command parameters that are whole numbers or NaN, for which [int] raises
    ValueError; no commands beyond the built-in ones; an [end_run_command]
    that fails after [do_enable] and an [update_telemetry] that fails from
    the time 1000.4 s on. *)
Module Harsh.

Definition externals : Externals := {|
  Param := option Z;
  py_int := fun p => match p with
                     | Some z => Return z
                     | None => Raise (Exception "cannot convert float NaN to integer")
                     end;
  py_bool := fun p => match p with Some z => negb (z =? 0) | None => true end;
  py_str := fun p => match p with Some z => pretty z +:+ ".0" | None => "nan" end;
  STATIONARY := 0;
  repr_state_field := Probe.repr_field;
  repr_ControllerState := Probe.repr_member;
  repr_substate_field := fun z => pretty z +:+ ".0";
  repr_EnabledSubstate := fun z => pretty z;
  SetStateParam_ENABLE := 2;
  SetStateParam_STANDBY := 3;
  SetStateParam_CLEAR_ERROR := 6;
  COMMAND_STATUS_REASON_LEN := 50;
  COMMAND_STATUS_REASON_LEN_pos := Probe.reason_len_pos;
  Dev := unit
|}.

Definition device : @Device externals := {|
  CommandCode_SET_STATE := 1;
  CommandCode_SET_ENABLED_SUBSTATE := 2;
  CommandCode_ENABLE_DRIVES := 3;
  CommandCode_others := [];
  CommandCode_name := "HarshCommandCode";
  extra_commands := ∅;
  end_run_command := fun _ m =>
    match m with
    | Method.do_enable => raise (Exception "set position is stuck")
    | _ => ret tt
    end;
  update_telemetry := fun t =>
    if Qle_bool (10004 # 10) t then raise (Exception "sensor lost") else ret tt
|}.

Definition command (code counter : Z) (param1 : option Z)
  : @Command.t externals :=
  @Command.mk externals code counter param1 (Some 0) (Some 0) (Some 0)
    (Some 0) (Some 0).

(** A controller constructed in [initial_state] with a client connected, its
    clock reading 1000.25 s and advancing by 0.1 s. *)
Definition online (initial_state : ControllerState.t) : @Mock externals :=
  snd (@client_connects externals
         (@init externals (Config.mk false)
            (Telemetry.mk ControllerState.STANDBY 0) tt initial_state
            (fun n => (100025 # 100) + inject_Z (Z.of_nat n) * (1 # 10))%Q)).

End Harsh.

(** ** SimpleCsc (python/lsst/ts/hexrotcomm/simple_csc.py)

    The first lines of [SimpleCsc.__init__]: every command topic of the
    component without a [do_] method gets the method [_do_nothing]. The
    object is the finite map of its attributes; [dir] lists their names. *)
Module SimpleCsc.

Inductive Attribute : Type :=
| defined_by_class
| do_nothing.

(** [name.startswith(prefix)]. *)
Fixpoint startswith (name prefix : string) {struct prefix} : bool :=
  match prefix with
  | EmptyString => true
  | String a prefix' =>
      match name with
      | EmptyString => false
      | String b name' => if Ascii.eqb a b then startswith name' prefix' else false
      end
  end.

(** [name[n:]]. *)
Fixpoint slice_from (n : nat) (name : string) : string :=
  match n, name with
  | O, _ => name
  | S n', String _ name' => slice_from n' name'
  | S _, EmptyString => EmptyString
  end.

Definition dir (self : gmap string Attribute) : list string :=
  (map_to_list self).*1.

Definition supported_command_names (self : gmap string Attribute)
  : list string :=
  map (slice_from 3) (List.filter (fun name => startswith name "do_") (dir self)).

Definition topic_names (topics : list string) : list string :=
  map (slice_from 4) (List.filter (fun name => startswith name "cmd_") topics).

(** The loop over [topic_names], [topics] being the names of
    [component_info.topics]. *)
Definition add_do_methods (topics : list string)
  (self : gmap string Attribute) : gmap string Attribute :=
  let supported := supported_command_names self in
  foldl (fun self topic_name =>
           if decide (topic_name ∈ supported) then self
           else <["do_" +:+ topic_name := do_nothing]> self)
        self (topic_names topics).

(** What the loop keeps true of the object it is building from [self0]. *)
Definition extends (topics : list string) (self0 self : gmap string Attribute)
  : Prop :=
  (forall name a, self0 !! name = Some a -> self !! name = Some a) /\
  (forall name a, self0 !! name = None -> self !! name = Some a ->
     a = do_nothing /\
     exists t, name = "do_" +:+ t /\ "cmd_" +:+ t ∈ topics).

End SimpleCsc.

(** ** Vocabulary of the properties *)

Section Vocabulary.
Context `{Dv : Device}.

(** The substate that goes with a state. *)
Definition substate_for (s : ControllerState.t) : Z :=
  if decide (s = ControllerState.ENABLED) then STATIONARY else 0.

(** The methods of the engine that run no device code, with their arguments. *)
Inductive EngineCall : Type :=
| CallAssertState (required : ControllerState.t) (required_substate : option Z)
| CallAssertStationary
| CallDoEnableDrives (command : Command.t)
| CallDoEnable (command : Command.t)
| CallDoStandby (command : Command.t)
| CallDoClearError (command : Command.t)
| CallUpdateAndGetHeader (frame_id : FrameId.t)
| CallWriteConfig
| CallWriteCommandStatus (counter : Z) (status : CommandStatusCode.t)
    (duration : option Q) (reason : string)
| CallConnectCallback
| CallCloseClient.

(** The controller a call leaves behind, whether it returned or raised. *)
Definition after (call : EngineCall) (c : Mock) : Mock :=
  match call with
  | CallAssertState s e => snd (assert_state s e c)
  | CallAssertStationary => snd (assert_stationary c)
  | CallDoEnableDrives command => snd (do_enable_drives command c)
  | CallDoEnable command => snd (do_enable command c)
  | CallDoStandby command => snd (do_standby command c)
  | CallDoClearError command => snd (do_clear_error command c)
  | CallUpdateAndGetHeader frame_id => snd (update_and_get_header frame_id c)
  | CallWriteConfig => snd (write_config c)
  | CallWriteCommandStatus n s d r => snd (write_command_status n s d r c)
  | CallConnectCallback => snd (connect_callback c)
  | CallCloseClient => snd (close_client c)
  end.

(** The state or substate a built-in state-transition method requires does
    not hold. *)
Definition precondition_unmet (m : Method.t) (c : Mock) : Prop :=
  match m with
  | Method.do_enable => state c <> ControllerState.STANDBY
  | Method.do_standby => state c <> ControllerState.ENABLED
  | Method.do_clear_error =>
      state c <> ControllerState.FAULT /\ state c <> ControllerState.STANDBY
  | _ => False
  end.

(** The command status records among some frames, each with the counter of
    its header. *)
Definition statuses (frames : list Frame) : list (Z * CommandStatus.t) :=
  omap (fun f => match frame_payload f with
                 | CommandStatusData s => Some (Header.counter (frame_header f), s)
                 | _ => None
                 end) frames.

(** What running a command leaves alone: the connection, the status records
    already written and the telemetry task. *)
Definition same_session (c c' : Mock) : Prop :=
  connected c' = connected c /\
  statuses (wire c') = statuses (wire c) /\
  futures c' = futures c /\
  telemetry_loop_task c' = telemetry_loop_task c.

(** The hook [end_run_command], called after method [m], returns and leaves
    the state and substate of the telemetry as they are. *)
Definition hook_returns (command : Command.t) (m : Method.t) : Prop :=
  forall p, exists p',
    end_run_command command m p = (Return tt, p') /\
    telemetry p' = telemetry p.

(** The status record that answers an outcome of [run_command]; none for a
    cancellation. *)
Definition reply (o : outcome (option Q)) : option CommandStatus.t :=
  match o with
  | Return None => Some (CommandStatus.mk CommandStatusCode.ACK 0%Q "")
  | Return (Some d) => Some (CommandStatus.mk CommandStatusCode.ACK d "")
  | Raise (CommandError msg) | Raise (Exception msg) =>
      Some (CommandStatus.mk CommandStatusCode.NO_ACK 0%Q
              (truncate COMMAND_STATUS_REASON_LEN msg))
  | Raise CancelledError => None
  end.

(** The answers to a sequence of commands, one per command and in their
    order, up to the first cancellation. *)
Fixpoint replies (commands : list Command.t) (c : Mock)
  : list (Z * CommandStatus.t) :=
  match commands with
  | [] => []
  | command :: rest =>
      match reply (fst (run_command command c)) with
      | None => []
      | Some s =>
          (Command.counter command, s)
          :: replies rest (snd (read_and_dispatch command c))
      end
  end.

(** What happens to a controller between its construction and its end: a
    client connects, the server loses its client, [close_client] or
    [connect_callback] is called, a command is read and dispatched, the
    telemetry loop runs against a schedule of wake-ups, or the future [i]
    comes to its end. *)
Inductive Event : Type :=
| ClientConnects
| ClientLost
| CloseClient
| ConnectCallback
| Dispatch (command : Command.t)
| Publish (schedule : list Wake)
| FutureEnds (i : nat).

Definition finish_state (s : FutureState) : FutureState :=
  match s with Pending => Done | _ => s end.

Definition step (e : Event) (c : Mock) : Mock :=
  match e with
  | ClientConnects => snd (client_connects c)
  | ClientLost => snd (tcpip_set_connected false c)
  | CloseClient => snd (close_client c)
  | ConnectCallback => snd (connect_callback c)
  | Dispatch command => snd (read_and_dispatch command c)
  | Publish schedule => snd (telemetry_loop schedule c)
  | FutureEnds i => set_futures (alter finish_state i (futures c)) c
  end.

Definition run (events : list Event) (c : Mock) : Mock :=
  foldl (fun c e => step e c) c events.

(** [telemetry_loop_task] refers to a future that was created, and every
    pending future is that one. *)
Definition one_publisher (c : Mock) : Prop :=
  (telemetry_loop_task c < length (futures c))%nat /\
  forall i, futures c !! i = Some Pending -> i = telemetry_loop_task c.

Definition is_config (f : Frame) : Prop :=
  exists g, frame_payload f = ConfigData g.

Definition is_telemetry (f : Frame) : Prop :=
  exists t, frame_payload f = TelemetryData t.

(** The time a header carries, in nanoseconds. *)
Definition nanoseconds (h : Header.t) : Z :=
  Header.tai_sec h * 1000000000 + Header.tai_nsec h.

(** The frame kind of a payload, and a frame whose header names it. *)
Definition kind_of (p : Payload) : FrameId.t :=
  match p with
  | ConfigData _ => FrameId.CONFIG
  | TelemetryData _ => FrameId.TELEMETRY
  | CommandStatusData _ => FrameId.COMMAND_STATUS
  end.

Definition well_kinded (f : Frame) : Prop :=
  Header.frame_id (frame_header f) = kind_of (frame_payload f).

(** Every retained header has the frame id it is kept under, and every frame
    written has the frame id of its payload. *)
Definition frames_in_order (c : Mock) : Prop :=
  (forall k, Header.frame_id (headers c k) = k) /\
  Forall well_kinded (wire c).

(** The hook [update_telemetry] always returns. *)
Definition update_returns : Prop :=
  forall t p, exists p', update_telemetry t p = (Return tt, p').

(** The events of the life of a connection, as opposed to the work done
    during it. *)
Definition lifecycle (e : Event) : Prop :=
  match e with
  | Dispatch _ | Publish _ => False
  | _ => True
  end.

(** [sub] occurs in [s]. *)
Definition contains (s sub : string) : Prop :=
  exists pre post, s = pre +:+ sub +:+ post.

End Vocabulary.

Arguments statuses : simpl never.

(** ** Properties *)

Section Properties.
Context `{Dv : Device}.

(** *** The state machine *)

Lemma set_state_eq (s : ControllerState.t) (c : Mock) :
  set_state s c =
  (Return tt,
   set_log (log c ++ [DebugSetState s (substate_for s)])
     (set_telemetry (Telemetry.mk s (substate_for s)) c)).
Proof. reflexivity. Qed.

Lemma assert_state_keeps (s : ControllerState.t) (e : option Z) (c : Mock) :
  snd (assert_state s e c) = c.
Proof.
  unfold assert_state, bind, gets, raise, ret; simpl.
  destruct (decide (state c <> s)); simpl; [reflexivity|].
  destruct e as [r|]; simpl; [|reflexivity].
  destruct (decide (enabled_substate c <> r)); reflexivity.
Qed.

Ltac run_monad :=
  unfold do_enable, do_standby, do_clear_error, do_enable_drives,
    assert_stationary, assert_state, set_state, write_config,
    write_command_status, update_and_get_header, write_from, current_tai,
    connect_callback, close_client, tcpip_set_connected, cancel, new_future,
    log_record, lift_plant, lift_outcome, bind, gets, modify, raise, ret;
  simpl.

Lemma engine_call_changes_state_by_set_state (call : EngineCall) (c : Mock) :
  telemetry (plant (after call c)) = telemetry (plant c) \/
  exists s,
    telemetry (plant (after call c)) = Telemetry.mk s (substate_for s) /\
    log (after call c) = log c ++ [DebugSetState s (substate_for s)].
Proof.
  destruct call; simpl.
  - rewrite assert_state_keeps; now left.
  - unfold assert_stationary; rewrite assert_state_keeps; now left.
  - left. run_monad. now destruct (connected c).
  - run_monad. destruct (decide (state c <> ControllerState.STANDBY)); simpl.
    + now left.
    + right. exists ControllerState.ENABLED. split; reflexivity.
  - run_monad. destruct (decide (state c <> ControllerState.ENABLED)); simpl.
    + now left.
    + right. exists ControllerState.STANDBY. split; reflexivity.
  - run_monad.
    destruct (decide (state c <> ControllerState.FAULT
                      /\ state c <> ControllerState.STANDBY)); simpl.
    + now left.
    + right. exists ControllerState.STANDBY. split; reflexivity.
  - left. now run_monad.
  - left. run_monad. now destruct (connected c).
  - left. run_monad. now destruct (connected c).
  - left. run_monad. now destruct (connected c).
  - left. run_monad. destruct (decide (connected c = false)); simpl; [reflexivity|].
    reflexivity.
Qed.

(** C3. For every state [s], [set_state s] returns, never raising, and
    leaves the controller in state [s] with the substate STATIONARY when [s]
    is ENABLED and 0 for every other [s]. The other methods of the engine
    change the state through [set_state] only: after any of them the
    telemetry is as it was, or it is what a call [set_state s'] makes it, and
    the log shows that call. *)
Theorem set_state_sets_state_and_substate (s : ControllerState.t) (c : Mock) :
  (exists c',
     set_state s c = (Return tt, c') /\
     state c' = s /\
     (s = ControllerState.ENABLED -> enabled_substate c' = STATIONARY) /\
     (s <> ControllerState.ENABLED -> enabled_substate c' = 0)) /\
  (forall call : EngineCall,
     telemetry (plant (after call c)) = telemetry (plant c) \/
     exists s',
       telemetry (plant (after call c))
       = telemetry (plant (snd (set_state s' c))) /\
       log (after call c) = log (snd (set_state s' c))).
Proof.
  split.
  - eexists. split; [apply set_state_eq|].
    split; [reflexivity|].
    unfold enabled_substate; simpl; unfold substate_for.
    split; intros Hs; destruct (decide (s = ControllerState.ENABLED));
      congruence.
  - intros call.
    destruct (engine_call_changes_state_by_set_state call c) as [Hk|[s' [Ht Hl]]].
    + now left.
    + right. exists s'. rewrite set_state_eq. simpl. now split.
Qed.

(** *** The frame headers *)

Lemma int_of_Q_nonneg (x : Q) : (0 <= x)%Q -> int_of_Q x = Qfloor x.
Proof.
  destruct x as [n d]. unfold Qle, int_of_Q, Qfloor. simpl. intros Hn.
  apply Z.quot_div_nonneg; lia.
Qed.

Lemma int_of_Q_inject_Z (z : Z) : int_of_Q (inject_Z z) = z.
Proof. unfold int_of_Q, inject_Z. simpl. apply Z.quot_1_r. Qed.

Lemma Qfloor_fraction (t : Q) :
  (0 <= t - inject_Z (Qfloor t))%Q /\ (t - inject_Z (Qfloor t) < 1)%Q.
Proof.
  pose proof (Qfloor_le t) as Hl. pose proof (Qlt_floor t) as Hu.
  rewrite inject_Z_plus in Hu. split.
  - apply (Qplus_le_l _ _ (inject_Z (Qfloor t))). ring_simplify. exact Hl.
  - apply (Qplus_lt_l _ _ (inject_Z (Qfloor t))). ring_simplify.
    exact Hu.
Qed.

Lemma nanoseconds_in_range (f : Q) :
  (0 <= f)%Q -> (f < 1)%Q ->
  0 <= int_of_Q (f * 1000000000) <= 999999999.
Proof.
  intros H0 H1.
  assert (Hp : (0 <= f * 1000000000)%Q).
  { apply Qmult_le_0_compat; [exact H0|]. unfold Qle; simpl; lia. }
  rewrite (int_of_Q_nonneg _ Hp). split.
  - change 0 with (Qfloor 0). now apply Qfloor_resp_le.
  - assert (Hlt : (f * 1000000000 < inject_Z 1000000000)%Q).
    { change (inject_Z 1000000000) with (1 * 1000000000)%Q.
      apply Qmult_lt_compat_r; [reflexivity|exact H1]. }
    pose proof (Qfloor_le (f * 1000000000)) as Hf.
    assert (Hz : (inject_Z (Qfloor (f * 1000000000)) < inject_Z 1000000000)%Q)
      by (eapply Qle_lt_trans; eassumption).
    rewrite <- Zlt_Qlt in Hz. lia.
Qed.

(** C9. For every frame kind and every current time [t >= 0],
    [update_and_get_header] returns the reference to the retained header of
    that kind together with [t]; the retained header has been changed in
    place: its frame_id and counter are as before, tai_sec is the whole
    number of seconds of [t], tai_nsec the remaining fraction of [t] in
    nanoseconds, between 0 and 999_999_999; the other headers are untouched.
    Times are exact rationals: the rounding of the floating-point product
    [tai_frac * 1e9] is not part of the model. *)
Theorem update_and_get_header_stamps (frame_id : FrameId.t) (c : Mock) :
  let t := clock c (clock_reads c) in
  (0 <= t)%Q ->
  exists c',
    update_and_get_header frame_id c = (Return (frame_id, t), c') /\
    Header.frame_id (headers c' frame_id) = Header.frame_id (headers c frame_id) /\
    Header.counter (headers c' frame_id) = Header.counter (headers c frame_id) /\
    Header.tai_sec (headers c' frame_id) = Qfloor t /\
    Header.tai_nsec (headers c' frame_id)
    = Qfloor ((t - inject_Z (Qfloor t)) * 1000000000) /\
    0 <= Header.tai_nsec (headers c' frame_id) <= 999999999 /\
    (forall k, k <> frame_id -> headers c' k = headers c k) /\
    plant c' = plant c /\ wire c' = wire c.
Proof.
  intros t Ht.
  destruct (Qfloor_fraction t) as [Hf0 Hf1].
  eexists. split; [reflexivity|]. simpl.
  destruct (decide (frame_id = frame_id)) as [_|]; [|congruence]. simpl.
  fold t. rewrite int_of_Q_inject_Z, (int_of_Q_nonneg t Ht).
  repeat split; try reflexivity.
  - apply int_of_Q_nonneg.
    apply Qmult_le_0_compat; [exact Hf0|]. unfold Qle; simpl; lia.
  - now apply nanoseconds_in_range.
  - now apply nanoseconds_in_range.
  - intros k Hk. now destruct (decide (k = frame_id)).
Qed.

(** *** Writing a command status *)

Lemma truncate_nonempty (n : nat) (s : string) :
  (0 < n)%nat -> s <> "" -> truncate n s <> "".
Proof.
  intros Hn Hs. destruct n as [|n]; [lia|].
  destruct s as [|a s]; [congruence|].
  unfold truncate. simpl. discriminate.
Qed.



Lemma statuses_snoc (w : list Frame) (f : Frame) :
  statuses (w ++ [f]) =
  statuses w ++ match frame_payload f with
                | CommandStatusData s => [(Header.counter (frame_header f), s)]
                | _ => []
                end.
Proof.
  unfold statuses. rewrite omap_app. f_equal. simpl.
  now destruct (frame_payload f).
Qed.

Lemma write_command_status_connected (n : Z) (st : CommandStatusCode.t)
  (d : Q) (r : string) (c : Mock) :
  connected c = true ->
  exists c',
    write_command_status n st (Some d) r c = (Return tt, c') /\
    statuses (wire c') =
    statuses (wire c)
    ++ [(n, CommandStatus.mk st d (truncate COMMAND_STATUS_REASON_LEN r))] /\
    plant c' = plant c /\ connected c' = true /\ log c' = log c /\
    futures c' = futures c /\ telemetry_loop_task c' = telemetry_loop_task c.
Proof.
  intros Hc. run_monad. rewrite Hc. simpl.
  eexists. split; [reflexivity|]. cbn [wire set_wire].
  rewrite statuses_snoc. simpl.
  repeat split; try assumption.
Qed.

(** *** What running a command leaves alone *)

Lemma same_session_refl (c : Mock) : same_session c c.
Proof. now repeat split. Qed.

Lemma lift_plant_same_session {A} (m : M Plant A) (c : Mock) :
  same_session c (snd (lift_plant m c)).
Proof. unfold lift_plant. destruct (m (plant c)). now repeat split. Qed.

Lemma call_same_session (m : Method.t) (command : Command.t) (c : Mock) :
  same_session c (snd (call m command c)).
Proof.
  destruct m; simpl.
  - run_monad. destruct (decide (state c <> ControllerState.STANDBY));
      now repeat split.
  - run_monad. destruct (decide (state c <> ControllerState.ENABLED));
      now repeat split.
  - run_monad.
    destruct (decide (state c <> ControllerState.FAULT
                      /\ state c <> ControllerState.STANDBY));
      now repeat split.
  - run_monad. destruct (connected c); simpl; repeat split; try reflexivity.
    cbn [wire set_wire]. now rewrite statuses_snoc, app_nil_r.
  - apply lift_plant_same_session.
Qed.

Lemma run_command_same_session (command : Command.t) (c : Mock) :
  same_session c (snd (run_command command c)).
Proof.
  unfold run_command, bind, lift_outcome.
  destruct (CommandCode (Command.code command)); [|apply same_session_refl].
  simpl.
  destruct (get_command_key command) as [key|e]; [|now repeat split].
  destruct (command_table !! key) as [m|]; [|now repeat split].
  pose proof (call_same_session m command
                (set_log (log c ++ [DebugRunCommand command]) c)) as Hcall.
  destruct (call m command _) as [[d|e] c1]; cbn [fst snd] in *;
    [|unfold same_session in *;
      cbn [connected wire futures telemetry_loop_task set_log] in *;
      exact Hcall].
  pose proof (lift_plant_same_session (end_run_command command m) c1) as Hend.
  destruct (lift_plant (end_run_command command m) c1) as [[[]|e] c2];
    unfold same_session in *;
    cbn [fst snd ret connected wire futures telemetry_loop_task set_log] in *;
    intuition congruence.
Qed.

(** *** Reading and dispatching one command *)

Lemma read_and_dispatch_answers (command : Command.t) (c : Mock) :
  connected c = true ->
  match reply (fst (run_command command c)) with
  | None =>
      read_and_dispatch command c
      = (Raise CancelledError, snd (run_command command c))
  | Some s =>
      exists c',
        read_and_dispatch command c = (Return tt, c') /\
        statuses (wire c') = statuses (wire c) ++ [(Command.counter command, s)] /\
        plant c' = plant (snd (run_command command c)) /\
        connected c' = true /\
        futures c' = futures c /\
        telemetry_loop_task c' = telemetry_loop_task c
  end.
Proof.
  intros Hc.
  destruct (run_command_same_session command c) as (Hc1 & Hw1 & Hf1 & Ht1).
  unfold read_and_dispatch.
  destruct (run_command command c) as [[d|[msg|msg|]] c1];
    cbn [fst snd reply] in *; rewrite Hc in Hc1.
  - destruct (write_command_status_connected (Command.counter command)
                CommandStatusCode.ACK
                (match d with None => 0%Q | Some q => q end) "" c1 Hc1)
      as (c' & Hrun & Hw & Hp & Hcc & _ & Hf & Ht).
    assert (Hreply : match d with
                     | None => Some (CommandStatus.mk CommandStatusCode.ACK 0%Q "")
                     | Some q => Some (CommandStatus.mk CommandStatusCode.ACK q "")
                     end
                     = Some (CommandStatus.mk CommandStatusCode.ACK
                               (match d with None => 0%Q | Some q => q end)
                               (truncate COMMAND_STATUS_REASON_LEN "")))
      by (unfold truncate; destruct d, COMMAND_STATUS_REASON_LEN; reflexivity).
    rewrite Hreply. exists c'. rewrite Hrun, Hw, Hw1, Hp, Hf, Ht.
    repeat split; assumption.
  - destruct (write_command_status_connected (Command.counter command)
                CommandStatusCode.NO_ACK 0%Q msg c1 Hc1)
      as (c' & Hrun & Hw & Hp & Hcc & _ & Hf & Ht).
    exists c'. rewrite Hrun, Hw, Hw1, Hp, Hf, Ht. repeat split; assumption.
  - destruct (write_command_status_connected (Command.counter command)
                CommandStatusCode.NO_ACK 0%Q msg
                (set_log (log c1 ++ [LogException
                   "Command failed (without raising CommandError)"
                   (Exception msg)]) c1) Hc1)
      as (c' & Hrun & Hw & Hp & Hcc & _ & Hf & Ht).
    exists c'. unfold bind at 1, log_record, modify. cbn [fst snd].
    rewrite Hrun, Hw. cbn [wire set_log plant futures telemetry_loop_task] in *.
    rewrite Hw1, Hp, Hf, Ht. repeat split; assumption.
  - reflexivity.
Qed.

(** *** Dispatch *)

Lemma CommandCode_member (value : Z) :
  value ∈ CommandCode_members -> CommandCode value = Return value.
Proof. intros Hv. unfold CommandCode. now destruct (decide _). Qed.

Lemma run_command_dispatched (command : Command.t) (key : CommandKey)
  (m : Method.t) (c : Mock) :
  Command.code command ∈ CommandCode_members ->
  get_command_key command = Return key ->
  command_table !! key = Some m ->
  run_command command c =
  match call m command (set_log (log c ++ [DebugRunCommand command]) c) with
  | (Return duration, c1) =>
      match lift_plant (end_run_command command m) c1 with
      | (Return _, c2) => (Return duration, c2)
      | (Raise e, c2) => (Raise e, c2)
      end
  | (Raise e, c1) => (Raise e, c1)
  end.
Proof.
  intros Hv Hk Hm. unfold run_command, bind, lift_outcome, log_record, modify.
  rewrite (CommandCode_member _ Hv), Hk, Hm. cbn [fst snd].
  destruct (call m command _) as [[d|e] c1]; [|reflexivity].
  now destruct (lift_plant (end_run_command command m) c1) as [[[]|e] c2].
Qed.

Lemma call_rejected (m : Method.t) (command : Command.t) (c : Mock) :
  precondition_unmet m c ->
  exists msg, msg <> "" /\ call m command c = (Raise (CommandError msg), c).
Proof.
  destruct m; simpl; intros Hp; try contradiction.
  - eexists. split; [|run_monad;
      destruct (decide (state c <> ControllerState.STANDBY));
      [reflexivity|contradiction]].
    discriminate.
  - eexists. split; [|run_monad;
      destruct (decide (state c <> ControllerState.ENABLED));
      [reflexivity|contradiction]].
    discriminate.
  - eexists. split; [|run_monad;
      destruct (decide (state c <> ControllerState.FAULT
                        /\ state c <> ControllerState.STANDBY));
      [reflexivity|contradiction]].
    discriminate.
Qed.

(** C1. A command that is dispatched to [do_enable], [do_standby] or
    [do_clear_error] while the state that method requires does not hold
    (not STANDBY; not ENABLED; neither FAULT nor STANDBY): [run_command]
    raises [CommandError]; [read_and_dispatch], on a connected controller,
    returns after writing one command status with the counter of the
    command, status NO_ACK and a non-empty reason; state and enabled
    substate are afterwards what they were before. *)
Theorem unmet_precondition_is_rejected (command : Command.t)
  (key : CommandKey) (m : Method.t) (c : Mock) :
  Command.code command ∈ CommandCode_members ->
  get_command_key command = Return key ->
  command_table !! key = Some m ->
  precondition_unmet m c ->
  connected c = true ->
  exists msg c1 c2 reason,
    run_command command c = (Raise (CommandError msg), c1) /\
    read_and_dispatch command c = (Return tt, c2) /\
    reason <> "" /\
    statuses (wire c2) =
    statuses (wire c)
    ++ [(Command.counter command,
         CommandStatus.mk CommandStatusCode.NO_ACK 0%Q reason)] /\
    state c1 = state c /\ enabled_substate c1 = enabled_substate c /\
    state c2 = state c /\ enabled_substate c2 = enabled_substate c.
Proof.
  intros Hv Hk Hm Hp Hc.
  set (c0 := set_log (log c ++ [DebugRunCommand command]) c).
  destruct (call_rejected m command c0 Hp) as (msg & Hmsg & Hcall).
  pose proof (run_command_dispatched command key m c Hv Hk Hm) as Hrun.
  fold c0 in Hrun. rewrite Hcall in Hrun.
  pose proof (read_and_dispatch_answers command c Hc) as Hans.
  rewrite Hrun in Hans. cbn [fst snd reply] in Hans.
  destruct Hans as (c2 & Hrd & Hw & Hpl & _).
  exists msg, c0, c2, (truncate COMMAND_STATUS_REASON_LEN msg).
  split; [exact Hrun|]. split; [exact Hrd|].
  split; [apply truncate_nonempty;
          [apply COMMAND_STATUS_REASON_LEN_pos|exact Hmsg]|].
  split; [exact Hw|].
  unfold state, enabled_substate. rewrite Hpl. now repeat split.
Qed.

(** C7. A command whose key, as [get_command_key] computes it, is not in
    [command_table]: [run_command] raises an error whose message contains
    the command code, and the controller it leaves is the one it found with
    at most the debug line added to the log, so no command method and no
    [end_run_command] has run; [read_and_dispatch], on a connected
    controller, answers with one NO_ACK carrying that message. The error is
    [CommandError] when the code is a member of [CommandCode] and the
    ValueError of the conversion to [CommandCode] when it is not. *)
Theorem unrecognized_command_is_rejected (command : Command.t)
  (key : CommandKey) (c : Mock) :
  get_command_key command = Return key ->
  command_table !! key = None ->
  connected c = true ->
  exists e msg c1 c2,
    run_command command c = (Raise e, c1) /\
    (e = CommandError msg \/ e = Exception msg) /\
    contains msg (pretty (Command.code command)) /\
    (c1 = c \/ c1 = set_log (log c ++ [DebugRunCommand command]) c) /\
    read_and_dispatch command c = (Return tt, c2) /\
    statuses (wire c2) =
    statuses (wire c)
    ++ [(Command.counter command,
         CommandStatus.mk CommandStatusCode.NO_ACK 0%Q
           (truncate COMMAND_STATUS_REASON_LEN msg))] /\
    plant c2 = plant c.
Proof.
  intros Hk Hm Hc.
  pose proof (read_and_dispatch_answers command c Hc) as Hans.
  assert (Hrun : exists e msg c1,
    run_command command c = (Raise e, c1) /\
    (e = CommandError msg \/ e = Exception msg) /\
    contains msg (pretty (Command.code command)) /\
    (c1 = c \/ c1 = set_log (log c ++ [DebugRunCommand command]) c)).
  { unfold run_command, bind, lift_outcome, log_record, modify, CommandCode.
    destruct (decide (Command.code command ∈ CommandCode_members)).
    - rewrite Hk, Hm. cbn [fst snd].
      eexists _, _, _. split; [reflexivity|].
      split; [left; reflexivity|].
      split; [|right; reflexivity].
      exists "Unrecognized command code ". eexists. reflexivity.
    - eexists _, _, _. split; [reflexivity|].
      split; [right; reflexivity|].
      split; [|left; reflexivity].
      exists "". eexists. reflexivity. }
  destruct Hrun as (e & msg & c1 & Hrun & He & Hmsg & Hc1).
  rewrite Hrun in Hans. cbn [fst snd] in Hans.
  assert (Hreply : reply (Raise e)
                   = Some (CommandStatus.mk CommandStatusCode.NO_ACK 0%Q
                             (truncate COMMAND_STATUS_REASON_LEN msg)))
    by (destruct He; subst e; reflexivity).
  rewrite Hreply in Hans. destruct Hans as (c2 & Hrd & Hw & Hpl & _).
  exists e, msg, c1, c2. repeat (split; [assumption|]).
  rewrite Hpl. now destruct Hc1; subst c1.
Qed.

(** *** clear_error *)

Lemma do_clear_error_accepted (command : Command.t) (c : Mock) :
  state c = ControllerState.STANDBY \/ state c = ControllerState.FAULT ->
  do_clear_error command c
  = (Return None, snd (set_state ControllerState.STANDBY c)).
Proof.
  intros Hs. run_monad.
  destruct (decide (state c <> ControllerState.FAULT
                    /\ state c <> ControllerState.STANDBY)) as [[Hf Hb]|_];
    [|reflexivity].
  destruct Hs; contradiction.
Qed.

(** C4. [do_clear_error] returns from STANDBY and from FAULT, leaving the
    state STANDBY, and raises [CommandError] from ENABLED, leaving the
    controller as it was. For a command dispatched to it on a connected
    controller, with an [end_run_command] that returns and keeps the state:
    from STANDBY and from FAULT the answer is ACK and the state afterwards is
    STANDBY; from ENABLED the answer is NO_ACK and the state stays ENABLED. *)
Theorem clear_error_from_each_state (command : Command.t) (c : Mock) :
  (state c = ControllerState.STANDBY \/ state c = ControllerState.FAULT ->
   exists c',
     do_clear_error command c = (Return None, c') /\
     state c' = ControllerState.STANDBY) /\
  (state c = ControllerState.ENABLED ->
   exists msg, do_clear_error command c = (Raise (CommandError msg), c)) /\
  (forall key,
     Command.code command ∈ CommandCode_members ->
     get_command_key command = Return key ->
     command_table !! key = Some Method.do_clear_error ->
     hook_returns command Method.do_clear_error ->
     connected c = true ->
     exists c2 s,
       read_and_dispatch command c = (Return tt, c2) /\
       statuses (wire c2) = statuses (wire c) ++ [(Command.counter command, s)] /\
       (state c = ControllerState.STANDBY \/ state c = ControllerState.FAULT ->
        CommandStatus.status s = CommandStatusCode.ACK /\
        state c2 = ControllerState.STANDBY) /\
       (state c = ControllerState.ENABLED ->
        CommandStatus.status s = CommandStatusCode.NO_ACK /\
        state c2 = ControllerState.ENABLED)).
Proof.
  split; [|split].
  - intros Hs. eexists. split; [now apply do_clear_error_accepted|reflexivity].
  - intros Hs.
    destruct (call_rejected Method.do_clear_error command c) as (msg & _ & Hr).
    { simpl. rewrite Hs. split; discriminate. }
    now exists msg.
  - intros key Hv Hk Hm Hh Hc.
    pose proof (run_command_dispatched command key _ c Hv Hk Hm) as Hrun.
    pose proof (read_and_dispatch_answers command c Hc) as Hans.
    set (c0 := set_log (log c ++ [DebugRunCommand command]) c) in *.
    destruct (state c) eqn:Hs.
    + cbn [call] in Hrun.
      rewrite (do_clear_error_accepted command c0) in Hrun by now left.
      unfold lift_plant in Hrun.
      destruct (Hh (plant (snd (set_state ControllerState.STANDBY c0))))
        as (p' & Hhook & Htel).
      rewrite Hhook in Hrun. rewrite Hrun in Hans. cbn [fst snd reply] in Hans.
      destruct Hans as (c2 & Hrd & Hw & Hpl & _).
      exists c2. eexists. split; [exact Hrd|]. split; [exact Hw|].
      split; [|discriminate]. intros _. split; [reflexivity|].
      unfold state. rewrite Hpl. simpl. now rewrite Htel.
    + destruct (call_rejected Method.do_clear_error command c0)
        as (msg & _ & Hr).
      { simpl. change (state c0) with (state c). rewrite Hs.
        split; discriminate. }
      rewrite Hr in Hrun. rewrite Hrun in Hans. cbn [fst snd reply] in Hans.
      destruct Hans as (c2 & Hrd & Hw & Hpl & _).
      exists c2. eexists. split; [exact Hrd|]. split; [exact Hw|].
      split; [intros [|]; discriminate|]. intros _. split; [reflexivity|].
      unfold state in *. now rewrite Hpl.
    + cbn [call] in Hrun.
      rewrite (do_clear_error_accepted command c0) in Hrun
        by (right; exact Hs).
      unfold lift_plant in Hrun.
      destruct (Hh (plant (snd (set_state ControllerState.STANDBY c0))))
        as (p' & Hhook & Htel).
      rewrite Hhook in Hrun. rewrite Hrun in Hans. cbn [fst snd reply] in Hans.
      destruct Hans as (c2 & Hrd & Hw & Hpl & _).
      exists c2. eexists. split; [exact Hrd|]. split; [exact Hw|].
      split; [|discriminate]. intros _. split; [reflexivity|].
      unfold state. rewrite Hpl. simpl. now rewrite Htel.
Qed.

(** *** The read loop *)

Lemma reply_status (o : outcome (option Q)) (s : CommandStatus.t) :
  reply o = Some s ->
  (exists d, o = Return d /\ CommandStatus.status s = CommandStatusCode.ACK) \/
  (exists e, o = Raise e /\ e <> CancelledError /\
             CommandStatus.status s = CommandStatusCode.NO_ACK).
Proof.
  destruct o as [[d|]|[msg|msg|]]; simpl; intros Hr; inversion Hr; subst;
    try (left; eexists; split; reflexivity);
    right; eexists; (split; [reflexivity|split; [discriminate|reflexivity]]).
Qed.

Lemma read_loop_replies (commands : list Command.t) (c : Mock) :
  connected c = true ->
  statuses (wire (snd (read_loop commands c)))
  = statuses (wire c) ++ replies commands c /\
  (fst (read_loop commands c) = Return tt ->
   map fst (replies commands c) = map Command.counter commands) /\
  (forall e, fst (read_loop commands c) = Raise e -> e = CancelledError).
Proof.
  revert c. induction commands as [|command rest IH]; intros c Hc.
  - simpl. rewrite app_nil_r. repeat split; intros; try reflexivity; discriminate.
  - pose proof (read_and_dispatch_answers command c Hc) as Hans.
    pose proof (run_command_same_session command c) as (_ & Hw1 & _).
    cbn [read_loop replies]. unfold bind.
    destruct (reply (fst (run_command command c))) as [s|].
    + destruct Hans as (c' & Hrd & Hw & _ & Hc' & _).
      rewrite Hrd. cbn [snd].
      destruct (IH c' Hc') as (IHw & IHr & IHe).
      rewrite IHw, Hw, <- app_assoc. split; [reflexivity|].
      split; [|exact IHe].
      intros Hret. simpl. f_equal. now apply IHr.
    + rewrite Hans. cbn [fst snd]. rewrite app_nil_r.
      split; [exact Hw1|]. split; [discriminate|].
      intros e He. now inversion He.
Qed.

(** C2, as amended. On a connected controller [read_and_dispatch] answers a
    command whose [run_command] returned with exactly one command status,
    ACK, and one whose [run_command] raised [CommandError] or any other
    [Exception] with exactly one, NO_ACK, the counter of the header being
    the counter of the command; a cancellation of [run_command] is raised
    again and no status is written. The statuses of a sequence of commands
    are written in the order of the commands, one for each, up to the first
    cancellation, and the read loop ends early by a cancellation only. *)
Theorem one_status_per_command (commands : list Command.t) (c : Mock) :
  connected c = true ->
  (forall command,
     (forall e, fst (run_command command c) = Raise e -> e <> CancelledError) ->
     exists c' s,
       read_and_dispatch command c = (Return tt, c') /\
       statuses (wire c') = statuses (wire c) ++ [(Command.counter command, s)] /\
       ((exists d, fst (run_command command c) = Return d) ->
        CommandStatus.status s = CommandStatusCode.ACK) /\
       ((exists e, fst (run_command command c) = Raise e) ->
        CommandStatus.status s = CommandStatusCode.NO_ACK)) /\
  (forall command,
     fst (run_command command c) = Raise CancelledError ->
     fst (read_and_dispatch command c) = Raise CancelledError /\
     statuses (wire (snd (read_and_dispatch command c))) = statuses (wire c)) /\
  statuses (wire (snd (read_loop commands c)))
  = statuses (wire c) ++ replies commands c /\
  (fst (read_loop commands c) = Return tt ->
   map fst (replies commands c) = map Command.counter commands) /\
  (forall e, fst (read_loop commands c) = Raise e -> e = CancelledError).
Proof.
  intros Hc. split; [|split; [|now apply read_loop_replies]].
  - intros command Hne.
    pose proof (read_and_dispatch_answers command c Hc) as Hans.
    destruct (reply (fst (run_command command c))) as [s|] eqn:Hr.
    + destruct Hans as (c' & Hrd & Hw & _).
      exists c', s. split; [exact Hrd|]. split; [exact Hw|].
      destruct (reply_status _ _ Hr) as [(d & Ho & Hs)|(e & Ho & _ & Hs)];
        (split; [intros [d' Hd]|intros [e' He]]); congruence.
    + destruct (fst (run_command command c)) as [[d|]|[msg|msg|]] eqn:Ho;
        try discriminate.
      now destruct (Hne CancelledError).
  - intros command Hcan.
    pose proof (read_and_dispatch_answers command c Hc) as Hans.
    rewrite Hcan in Hans. cbn [reply] in Hans. rewrite Hans. cbn [fst snd].
    split; [reflexivity|]. apply run_command_same_session.
Qed.

(** *** The form of a command status *)





(** *** Connections and the state *)

Lemma connect_callback_keeps_plant (c : Mock) :
  plant (snd (connect_callback c)) = plant c /\
  log (snd (connect_callback c)) = log c /\
  wire (snd (connect_callback c)) = wire c.
Proof. run_monad. now destruct (connected c). Qed.

Lemma init_state (config0 : Config.t) (telemetry0 : Telemetry.t) (device0 : Dev)
  (initial_state : ControllerState.t) (clock0 : nat -> Q) :
  state (init config0 telemetry0 device0 initial_state clock0) = initial_state /\
  enabled_substate (init config0 telemetry0 device0 initial_state clock0)
  = substate_for initial_state.
Proof. now split. Qed.

(** C5, as amended. The constructor calls [set_state] with the configured
    initial state, once. [connect_callback] does not: when a client connects
    the state and the substate stay what they were, nothing is logged by
    [set_state], and the telemetry task is started. *)
Theorem connection_keeps_state (config0 : Config.t) (telemetry0 : Telemetry.t)
  (device0 : Dev) (initial_state : ControllerState.t) (clock0 : nat -> Q)
  (c : Mock) :
  (state (init config0 telemetry0 device0 initial_state clock0) = initial_state /\
   log (init config0 telemetry0 device0 initial_state clock0)
   = [DebugSetState initial_state (substate_for initial_state)]) /\
  (state (snd (client_connects c)) = state c /\
   enabled_substate (snd (client_connects c)) = enabled_substate c /\
   log (snd (client_connects c)) = log c) /\
  (connected c = false ->
   exists c',
     client_connects c = (Return tt, c') /\
     connected c' = true /\
     futures c' !! telemetry_loop_task c' = Some Pending).
Proof.
  split; [now split|]. split.
  - unfold client_connects, tcpip_set_connected, bind, gets. cbn [fst snd].
    destruct (decide (connected c = true)); [now repeat split|].
    unfold modify. cbn [fst snd].
    destruct (connect_callback_keeps_plant (set_connected true c))
      as (Hp & Hl & _).
    unfold state, enabled_substate. rewrite Hp, Hl. now repeat split.
  - intros Hc. unfold client_connects. run_monad. rewrite Hc.
    destruct (decide (false = true)); [discriminate|]. simpl.
    eexists. split; [reflexivity|]. split; [reflexivity|]. simpl.
    rewrite lookup_app_r by (now rewrite length_alter).
    now rewrite length_alter, Nat.sub_diag.
Qed.

(** *** The telemetry task *)

Lemma write_command_status_tasks (n : Z) (st : CommandStatusCode.t)
  (d : option Q) (r : string) (c : Mock) :
  futures (snd (write_command_status n st d r c)) = futures c /\
  telemetry_loop_task (snd (write_command_status n st d r c))
  = telemetry_loop_task c.
Proof. run_monad. now destruct (connected c). Qed.

Lemma read_and_dispatch_tasks (command : Command.t) (c : Mock) :
  futures (snd (read_and_dispatch command c)) = futures c /\
  telemetry_loop_task (snd (read_and_dispatch command c))
  = telemetry_loop_task c.
Proof.
  destruct (run_command_same_session command c) as (_ & _ & Hf & Ht).
  unfold read_and_dispatch.
  destruct (run_command command c) as [[d|[msg|msg|]] c1]; cbn [fst snd] in *.
  - destruct (write_command_status_tasks (Command.counter command)
                CommandStatusCode.ACK
                (Some (match d with None => 0%Q | Some q => q end)) "" c1)
      as [Hf' Ht'].
    rewrite Hf', Ht'. now split.
  - destruct (write_command_status_tasks (Command.counter command)
                CommandStatusCode.NO_ACK (Some 0%Q) msg c1) as [Hf' Ht'].
    rewrite Hf', Ht'. now split.
  - unfold log_record, modify. do 2 (unfold bind at 1; cbn [fst snd]).
    match goal with
    | |- context [write_command_status ?n ?s ?d ?r ?c0] =>
        destruct (write_command_status_tasks n s d r c0) as [Hf' Ht']
    end.
    rewrite Hf', Ht'. now split.
  - now split.
Qed.

Lemma telemetry_tick_tasks (c : Mock) :
  futures (snd (telemetry_tick c)) = futures c /\
  telemetry_loop_task (snd (telemetry_tick c)) = telemetry_loop_task c /\
  connected (snd (telemetry_tick c)) = connected c.
Proof.
  unfold telemetry_tick. run_monad.
  destruct (update_telemetry _ _) as [[[]|e] p]; simpl; [|now repeat split].
  destruct (connected c) eqn:Hc; simpl; repeat split; try reflexivity; auto.
Qed.

Lemma telemetry_while_tasks (schedule : list Wake) (c : Mock) :
  futures (snd (telemetry_while schedule c)) = futures c /\
  telemetry_loop_task (snd (telemetry_while schedule c)) = telemetry_loop_task c.
Proof.
  revert c. induction schedule as [|w rest IH]; intros c; simpl;
    destruct (connected c); try (now split);
    destruct (telemetry_tick_tasks c) as (Hf & Ht & _);
    destruct (telemetry_tick c) as [[[]|e] c1]; cbn [fst snd] in *;
    try (now split).
  destruct w; simpl.
  - destruct (IH c1) as [Hf' Ht']. rewrite Hf', Ht'. now split.
  - destruct (IH (set_connected false c1)) as [Hf' Ht'].
    rewrite Hf', Ht'. now split.
  - now split.
Qed.

Lemma telemetry_loop_tasks (schedule : list Wake) (c : Mock) :
  futures (snd (telemetry_loop schedule c)) = futures c /\
  telemetry_loop_task (snd (telemetry_loop schedule c)) = telemetry_loop_task c.
Proof.
  unfold telemetry_loop, telemetry_try.
  set (c0 := snd (log_record (LogInfo "telemetry_loop begins") c)).
  assert (Hcfg : forall r : outcome unit * Mock,
             r = (if connected c0 then write_config c0 else (Return tt, c0)) ->
             futures (snd r) = futures c /\
             telemetry_loop_task (snd r) = telemetry_loop_task c).
  { intros r ->. destruct (connected c0) eqn:Hc; [|now split].
    run_monad. change (connected c) with (connected c0). now rewrite Hc. }
  specialize (Hcfg _ eq_refl).
  destruct (if connected c0 then write_config c0 else (Return tt, c0))
    as [[[]|e] c1]; cbn [fst snd] in Hcfg.
  - destruct (telemetry_while_tasks schedule c1) as [Hf Ht].
    destruct (telemetry_while schedule c1) as [[[[]|e]|] c2];
      cbn [fst snd] in *; try destruct e; cbn [fst snd log_record modify];
      simpl; intuition congruence.
  - destruct e; simpl; exact Hcfg.
Qed.

Lemma cancel_state_not_pending (s : FutureState) : cancel_state s <> Pending.
Proof. now destruct s. Qed.

Lemma cancelled_none_pending (l : list FutureState) (h i : nat) :
  (forall j, l !! j = Some Pending -> j = h) ->
  alter cancel_state h l !! i <> Some Pending.
Proof.
  intros Hone Hi. destruct (decide (h = i)) as [->|Hne].
  - rewrite list_lookup_alter_eq in Hi.
    destruct (l !! i) as [s|]; simpl in Hi; [|discriminate].
    inversion Hi. now apply (cancel_state_not_pending s).
  - rewrite list_lookup_alter_ne in Hi by exact Hne.
    apply Hone in Hi. congruence.
Qed.

Lemma connect_callback_one_publisher (c : Mock) :
  one_publisher c -> one_publisher (snd (connect_callback c)).
Proof.
  intros [Hlt Hone]. run_monad. destruct (connected c); simpl; split; simpl.
  - rewrite length_app, length_alter. simpl. lia.
  - intros i Hi.
    destruct (decide (i < length (futures c))%nat) as [Hi'|Hge].
    + rewrite lookup_app_l in Hi by (now rewrite length_alter).
      now apply cancelled_none_pending in Hi.
    + apply lookup_lt_Some in Hi. rewrite length_app, length_alter in Hi.
      rewrite length_alter. simpl in Hi. lia.
  - now rewrite length_alter.
  - intros i Hi. now apply cancelled_none_pending in Hi.
Qed.

Lemma step_one_publisher (e : Event) (c : Mock) :
  one_publisher c -> one_publisher (step e c).
Proof.
  intros Hone. destruct e; simpl.
  - unfold client_connects, tcpip_set_connected, bind, gets, modify.
    cbn [fst snd]. destruct (decide (connected c = true)); [exact Hone|].
    cbn [fst snd]. now apply connect_callback_one_publisher.
  - unfold tcpip_set_connected, bind, gets, modify.
    cbn [fst snd]. destruct (decide (connected c = false)); [exact Hone|].
    cbn [fst snd]. now apply connect_callback_one_publisher.
  - unfold close_client, tcpip_set_connected, cancel, bind, gets, modify.
    cbn [fst snd].
    assert (Hc : one_publisher
      (set_futures (alter cancel_state (telemetry_loop_task c) (futures c)) c)).
    { destruct Hone as [Hlt Hone]. split; simpl.
      - now rewrite length_alter.
      - intros i Hi. now apply cancelled_none_pending in Hi. }
    cbn [connected set_futures].
    destruct (decide (connected c = false)); [exact Hc|].
    cbn [fst snd]. now apply connect_callback_one_publisher.
  - now apply connect_callback_one_publisher.
  - unfold one_publisher.
    destruct (read_and_dispatch_tasks command c) as [-> ->]. exact Hone.
  - unfold one_publisher.
    destruct (telemetry_loop_tasks schedule c) as [-> ->]. exact Hone.
  - destruct Hone as [Hlt Hone]. split; simpl.
    + now rewrite length_alter.
    + intros j Hj. apply Hone.
      destruct (decide (i = j)) as [->|Hne].
      * rewrite list_lookup_alter_eq in Hj.
        destruct (futures c !! j) as [[]|]; simpl in Hj; congruence.
      * now rewrite list_lookup_alter_ne in Hj.
Qed.

Lemma run_one_publisher (events : list Event) (c : Mock) :
  one_publisher c -> one_publisher (run events c).
Proof.
  revert c. induction events as [|e rest IH]; intros c Hone; [exact Hone|].
  simpl. apply IH. now apply step_one_publisher.
Qed.

Lemma cancelled_self (l : list FutureState) (h : nat) :
  alter cancel_state h l !! h <> Some Pending.
Proof.
  rewrite list_lookup_alter_eq. destruct (l !! h) as [s|]; simpl; [|discriminate].
  intros Hs. inversion Hs. now apply (cancel_state_not_pending s).
Qed.

Lemma cancel_idle (l : list FutureState) (h : nat) :
  l !! h <> Some Pending -> alter cancel_state h l = l.
Proof.
  intros Hh. apply list_eq. intros i. destruct (decide (h = i)) as [->|Hne].
  - rewrite list_lookup_alter_eq. destruct (l !! i) as [[]|]; simpl; congruence.
  - now rewrite list_lookup_alter_ne.
Qed.

(** C10. The telemetry task of a new controller is a future that is done.
    After any sequence of connections, losses of the client, calls of
    [close_client] and [connect_callback], dispatched commands, runs of the
    telemetry loop and endings of futures, at most one future is pending,
    and it is the one [telemetry_loop_task] refers to. [connect_callback]
    cancels the task it finds, connected or not, and creates a new one only
    when a client is connected; [close_client] cancels it too; and [cancel]
    never raises and leaves a future that is not pending, such as the first
    one, as it is. *)
Theorem at_most_one_telemetry_task (config0 : Config.t)
  (telemetry0 : Telemetry.t) (device0 : Dev)
  (initial_state : ControllerState.t) (clock0 : nat -> Q)
  (events : list Event) :
  let c0 := init config0 telemetry0 device0 initial_state clock0 in
  let c := run events c0 in
  futures c0 !! telemetry_loop_task c0 = Some Done /\
  (forall i j,
     futures c !! i = Some Pending -> futures c !! j = Some Pending -> i = j) /\
  (forall i, futures c !! i = Some Pending -> i = telemetry_loop_task c) /\
  futures (snd (connect_callback c)) !! telemetry_loop_task c <> Some Pending /\
  (connected c = false ->
   futures (snd (connect_callback c))
   = alter cancel_state (telemetry_loop_task c) (futures c) /\
   telemetry_loop_task (snd (connect_callback c)) = telemetry_loop_task c) /\
  (connected c = true ->
   futures (snd (connect_callback c))
   = alter cancel_state (telemetry_loop_task c) (futures c) ++ [Pending] /\
   telemetry_loop_task (snd (connect_callback c)) = length (futures c)) /\
  futures (snd (close_client c)) !! telemetry_loop_task c <> Some Pending /\
  (forall i,
     fst (cancel i c) = Return tt /\
     (futures c !! i <> Some Pending -> futures (snd (cancel i c)) = futures c)).
Proof.
  intros c0 c.
  assert (Hinv : one_publisher c).
  { apply run_one_publisher. split; [simpl; lia|].
    intros i Hi. destruct i as [|i]; simpl in Hi; discriminate. }
  destruct Hinv as [Hlt Hone].
  split; [reflexivity|].
  split; [intros i j Hi Hj; rewrite (Hone i Hi), (Hone j Hj); reflexivity|].
  split; [exact Hone|].
  split.
  { run_monad. destruct (connected c); simpl.
    - rewrite lookup_app_l by (now rewrite length_alter). apply cancelled_self.
    - apply cancelled_self. }
  split.
  { intros Hc. run_monad. rewrite Hc. now split. }
  split.
  { intros Hc. run_monad. rewrite Hc. simpl. split; [reflexivity|].
    apply length_alter. }
  split.
  { run_monad. destruct (decide (connected c = false)) as [Hc|Hc]; simpl.
    - apply cancelled_self.
    - apply cancelled_self. }
  intros i. split; [reflexivity|].
  intros Hi. simpl. now apply cancel_idle.
Qed.

(** *** The telemetry loop *)

Lemma telemetry_tick_wire (c : Mock) :
  exists tels,
    Forall is_telemetry tels /\
    wire (snd (telemetry_tick c)) = wire c ++ tels.
Proof.
  unfold telemetry_tick. run_monad.
  destruct (update_telemetry _ _) as [[[]|e] p]; simpl.
  - destruct (connected c); simpl.
    + eexists [_]. split; [|reflexivity].
      constructor; [|constructor]. eexists. reflexivity.
    + exists []. split; [constructor|now rewrite app_nil_r].
  - exists []. split; [constructor|now rewrite app_nil_r].
Qed.

Lemma telemetry_while_wire (schedule : list Wake) (c : Mock) :
  exists tels,
    Forall is_telemetry tels /\
    wire (snd (telemetry_while schedule c)) = wire c ++ tels.
Proof.
  revert c. induction schedule as [|w rest IH]; intros c; simpl;
    (destruct (connected c);
     [|exists []; split; [constructor|now rewrite app_nil_r]]);
    destruct (telemetry_tick_wire c) as (t1 & Ht1 & Hw1);
    destruct (telemetry_tick c) as [[[]|e] c1]; cbn [fst snd] in *;
    try (exists t1; now split).
  assert (Hrest : forall c2, wire c2 = wire c1 ->
            exists tels, Forall is_telemetry tels /\
              wire (snd (telemetry_while rest c2)) = wire c ++ tels).
  { intros c2 Hc2. destruct (IH c2) as (t2 & Ht2 & Hw2).
    exists (t1 ++ t2). split; [now apply Forall_app|].
    now rewrite Hw2, Hc2, Hw1, app_assoc. }
  destruct w; simpl.
  - now apply Hrest.
  - now apply Hrest.
  - exists t1. now split.
Qed.

Lemma write_config_connected (c : Mock) :
  connected c = true ->
  exists c' f,
    write_config c = (Return tt, c') /\ wire c' = wire c ++ [f] /\
    is_config f /\ connected c' = true.
Proof.
  intros Hc. run_monad. rewrite Hc.
  eexists _, _. split; [reflexivity|]. simpl.
  split; [reflexivity|]. split; [eexists; reflexivity|exact Hc].
Qed.

Lemma telemetry_try_wire (schedule : list Wake) (c : Mock) :
  exists tels,
    Forall is_telemetry tels /\
    (connected c = true ->
     exists f, is_config f /\
       wire (snd (telemetry_try schedule c)) = wire c ++ f :: tels) /\
    (connected c = false -> wire (snd (telemetry_try schedule c)) = wire c).
Proof.
  unfold telemetry_try. destruct (connected c) eqn:Hc.
  - destruct (write_config_connected c Hc) as (c1 & f & Hrun & Hw & Hf & _).
    rewrite Hrun.
    destruct (telemetry_while_wire schedule c1) as (tels & Ht & Hw').
    exists tels. split; [exact Ht|]. split; [|discriminate].
    intros _. exists f. split; [exact Hf|].
    destruct (telemetry_while schedule c1) as [[[[]|e]|] c2];
      cbn [fst snd] in *; simpl; now rewrite Hw', Hw, <- app_assoc.
  - exists []. split; [constructor|]. split; [discriminate|]. intros _.
    destruct schedule; simpl; now rewrite Hc.
Qed.

Lemma telemetry_while_returns (schedule : list Wake) (c c' : Mock) (u : unit) :
  telemetry_while schedule c = (Some (Return u), c') -> connected c' = false.
Proof.
  revert c. induction schedule as [|w rest IH]; intros c; simpl;
    destruct (connected c) eqn:Hc;
    try (intros Hr; inversion Hr; subst; exact Hc);
    destruct (telemetry_tick c) as [[[]|e] c1]; try discriminate.
  destruct w; simpl; try discriminate; apply IH.
Qed.

Lemma telemetry_try_returns (schedule : list Wake) (c c' : Mock) (u : unit) :
  telemetry_try schedule c = (Some (Return u), c') -> connected c' = false.
Proof.
  unfold telemetry_try.
  destruct (if connected c then write_config c else (Return tt, c))
    as [[[]|e] c1]; [|discriminate].
  destruct (telemetry_while schedule c1) as [[[[]|e]|] c2] eqn:Hw;
    try discriminate.
  intros Hr. inversion Hr; subst. simpl.
  exact (telemetry_while_returns schedule c1 c2 tt Hw).
Qed.

(** The shape of a run of the telemetry loop against any schedule: the
    records written, the three ways it can stand at the end, and how the
    outcome of the [try] becomes the outcome of the loop. *)
Lemma telemetry_loop_shape (schedule : list Wake) (c : Mock) :
  let c0 := snd (log_record (LogInfo "telemetry_loop begins") c) in
  let r := telemetry_loop schedule c in
  (exists tels,
     Forall is_telemetry tels /\
     (connected c = true ->
      exists f, is_config f /\ wire (snd r) = wire c ++ f :: tels) /\
     (connected c = false -> wire (snd r) = wire c)) /\
  (fst r = None \/ fst r = Some (Return tt) \/
   fst r = Some (Raise CancelledError)) /\
  (forall c1,
     telemetry_try schedule c0 = (Some (Raise CancelledError), c1) ->
     r = (Some (Raise CancelledError), c1)) /\
  (forall e c1,
     telemetry_try schedule c0 = (Some (Raise e), c1) ->
     e <> CancelledError ->
     r = (Some (Return tt),
          set_log (log c1 ++ [LogException "telemetry_loop failed" e]) c1)) /\
  (forall c1,
     telemetry_try schedule c0 = (Some (Return tt), c1) ->
     r = (Some (Return tt), c1) /\ connected c1 = false).
Proof.
  intros c0 r. subst r. unfold telemetry_loop. fold c0.
  destruct (telemetry_try_wire schedule c0) as (tels & Ht & Hon & Hoff).
  change (connected c0) with (connected c) in *.
  change (wire c0) with (wire c) in *.
  destruct (telemetry_try schedule c0) as [[[[]|e]|] c1] eqn:Htry;
    cbn [fst snd] in *.
  - split; [exists tels; now repeat split|].
    split; [right; now left|].
    split; [discriminate|]. split; [discriminate|].
    intros c2 Hc2. inversion Hc2; subst c2. split; [reflexivity|].
    exact (telemetry_try_returns schedule c0 c1 tt Htry).
  - assert (Hwire : wire (snd
        (match e with
         | CancelledError => (Some (Raise CancelledError), c1)
         | _ => (Some (Return tt),
                 snd (log_record (LogException "telemetry_loop failed" e) c1))
         end : option (outcome unit) * Mock)) = wire c1)
      by now destruct e.
    split.
    { exists tels. split; [exact Ht|]. split.
      - intros Hc. destruct (Hon Hc) as (f & Hf & Hw). exists f.
        split; [exact Hf|]. destruct e; simpl in *; exact Hw.
      - intros Hc. destruct e; simpl in *; now apply Hoff. }
    split; [destruct e; simpl; auto|].
    split; [intros c2 Hc2; now inversion Hc2|].
    split; [|discriminate].
    intros e' c2 He' Hne. inversion He'; subst e' c2.
    destruct e; [reflexivity|reflexivity|congruence].
  - split; [exists tels; now repeat split|].
    split; [now left|].
    split; [discriminate|]. split; discriminate.
Qed.

End Properties.

(** ** The properties on the concrete device *)

Section Instances.
Import Probe.

(** STANDBY (parameter 3) requested in STANDBY is rejected. *)
Lemma unmet_precondition_is_rejected_witness :
  let c := online ControllerState.STANDBY in
  let command := Probe.command 1 8 3 in
  (Command.code command ∈ CommandCode_members /\
   get_command_key command = Return (KeyPair 1 3) /\
   command_table !! KeyPair 1 3 = Some Method.do_standby /\
   precondition_unmet Method.do_standby c /\
   connected c = true) /\
  exists msg c1 c2 reason,
    run_command command c = (Raise (CommandError msg), c1) /\
    read_and_dispatch command c = (Return tt, c2) /\
    reason <> "" /\
    statuses (wire c2) =
    statuses (wire c)
    ++ [(Command.counter command,
         CommandStatus.mk CommandStatusCode.NO_ACK 0%Q reason)] /\
    state c1 = state c /\ enabled_substate c1 = enabled_substate c /\
    state c2 = state c /\ enabled_substate c2 = enabled_substate c.
Proof.
  intros c command.
  assert (H1 : Command.code command ∈ CommandCode_members)
    by (vm_compute; constructor).
  assert (H2 : get_command_key command = Return (KeyPair 1 3))
    by reflexivity.
  assert (H3 : command_table !! KeyPair 1 3 = Some Method.do_standby)
    by (vm_compute; reflexivity).
  assert (H4 : precondition_unmet Method.do_standby c)
    by (vm_compute; discriminate).
  assert (H5 : connected c = true) by reflexivity.
  split; [exact (conj H1 (conj H2 (conj H3 (conj H4 H5))))|].
  exact (unmet_precondition_is_rejected command (KeyPair 1 3)
           Method.do_standby c H1 H2 H3 H4 H5).
Defined.

(** SET_ENABLED_SUBSTATE has no entry in the table. *)
Lemma unrecognized_command_is_rejected_witness :
  let c := online ControllerState.STANDBY in
  let command := Probe.command 2 7 1 in
  (get_command_key command = Return (KeyPair 2 1) /\
   command_table !! KeyPair 2 1 = None /\
   connected c = true) /\
  exists e msg c1 c2,
    run_command command c = (Raise e, c1) /\
    (e = CommandError msg \/ e = Exception msg) /\
    contains msg (pretty (Command.code command)) /\
    (c1 = c \/ c1 = set_log (log c ++ [DebugRunCommand command]) c) /\
    read_and_dispatch command c = (Return tt, c2) /\
    statuses (wire c2) =
    statuses (wire c)
    ++ [(Command.counter command,
         CommandStatus.mk CommandStatusCode.NO_ACK 0%Q
           (truncate COMMAND_STATUS_REASON_LEN msg))] /\
    plant c2 = plant c.
Proof.
  intros c command.
  assert (H1 : get_command_key command = Return (KeyPair 2 1)) by reflexivity.
  assert (H2 : command_table !! KeyPair 2 1 = None)
    by (vm_compute; reflexivity).
  assert (H3 : connected c = true) by reflexivity.
  split; [exact (conj H1 (conj H2 H3))|].
  exact (unrecognized_command_is_rejected command (KeyPair 2 1) c H1 H2 H3).
Defined.

(** Enable, an unknown code, a move and a second enable: four statuses with
    the counters 1, 2, 3 and 4. *)
Lemma one_status_per_command_witness :
  let c := online ControllerState.STANDBY in
  let commands := [Probe.command 1 1 2; Probe.command 99 2 0;
                   Probe.command 4 3 0; Probe.command 1 4 2] in
  connected c = true /\
  statuses (wire (snd (read_loop commands c)))
  = statuses (wire c) ++ replies commands c /\
  (fst (read_loop commands c) = Return tt ->
   map fst (replies commands c) = map Command.counter commands).
Proof.
  intros c commands.
  assert (H1 : connected c = true) by reflexivity.
  split; [exact H1|].
  destruct (one_status_per_command commands c H1) as (_ & _ & Hw & Hr & _).
  exact (conj Hw Hr).
Defined.


(** The clock of the concrete controller reads 1000.25 s. *)
Lemma update_and_get_header_stamps_witness :
  let c := fresh ControllerState.STANDBY in
  let t := clock c (clock_reads c) in
  (0 <= t)%Q /\
  exists c',
    update_and_get_header FrameId.TELEMETRY c
    = (Return (FrameId.TELEMETRY, t), c') /\
    Header.frame_id (headers c' FrameId.TELEMETRY)
    = Header.frame_id (headers c FrameId.TELEMETRY) /\
    Header.counter (headers c' FrameId.TELEMETRY)
    = Header.counter (headers c FrameId.TELEMETRY) /\
    Header.tai_sec (headers c' FrameId.TELEMETRY) = Qfloor t /\
    Header.tai_nsec (headers c' FrameId.TELEMETRY)
    = Qfloor ((t - inject_Z (Qfloor t)) * 1000000000) /\
    0 <= Header.tai_nsec (headers c' FrameId.TELEMETRY) <= 999999999 /\
    (forall k, k <> FrameId.TELEMETRY -> headers c' k = headers c k) /\
    plant c' = plant c /\ wire c' = wire c.
Proof.
  intros c t.
  assert (H1 : (0 <= t)%Q) by (vm_compute; discriminate).
  split; [exact H1|].
  exact (update_and_get_header_stamps FrameId.TELEMETRY c H1).
Defined.

(** clear_error (parameter 6) sent to a controller in FAULT. *)
Lemma clear_error_from_each_state_witness :
  let c := online ControllerState.FAULT in
  let command := Probe.command 1 5 6 in
  exists c2 s,
    read_and_dispatch command c = (Return tt, c2) /\
    statuses (wire c2) = statuses (wire c) ++ [(Command.counter command, s)] /\
    CommandStatus.status s = CommandStatusCode.ACK /\
    state c2 = ControllerState.STANDBY.
Proof.
  intros c command.
  destruct (clear_error_from_each_state command c) as (_ & _ & Hd).
  destruct (Hd (KeyPair 1 6)) as (c2 & s & Hrd & Hw & Hack & _).
  - vm_compute; constructor.
  - reflexivity.
  - vm_compute; reflexivity.
  - intros p. exists p. now split.
  - reflexivity.
  - exists c2, s. split; [exact Hrd|]. split; [exact Hw|].
    apply Hack. now right.
Defined.

(** C2, a counterexample. The command of code 12 is cancelled while it runs:
    [run_command] raises, and [read_and_dispatch] on the connected
    controller writes no command status at all. *)
Lemma cancelled_command_gets_no_status :
  let c := online ControllerState.STANDBY in
  let command := Probe.command 12 5 0 in
  connected c = true /\
  fst (run_command command c) = Raise CancelledError /\
  fst (read_and_dispatch command c) = Raise CancelledError /\
  statuses (wire (snd (read_and_dispatch command c))) = statuses (wire c) /\
  ~ (exists s, statuses (wire (snd (read_and_dispatch command c)))
               = statuses (wire c) ++ [(Command.counter command, s)]).
Proof.
  intros c command.
  split; [reflexivity|].
  split; [vm_compute; reflexivity|].
  split; [vm_compute; reflexivity|].
  split; [vm_compute; reflexivity|].
  intros [s Hs]. vm_compute in Hs. discriminate.
Qed.

(** C5, a counterexample. A controller configured with the initial state
    STANDBY is enabled by its first client; the client is closed and a
    second one connects: the connection starts in ENABLED, and [set_state]
    has been called twice in all, by the constructor and by the command. *)
Lemma reconnection_keeps_state :
  let c1 := snd (read_and_dispatch (Probe.command 1 1 2)
                   (online ControllerState.STANDBY)) in
  let c2 := snd (client_connects (snd (close_client c1))) in
  state (fresh ControllerState.STANDBY) = ControllerState.STANDBY /\
  connected (snd (close_client c1)) = false /\
  connected c2 = true /\
  state c2 = ControllerState.ENABLED /\
  state c2 <> ControllerState.STANDBY /\
  log c2 = [DebugSetState ControllerState.STANDBY 0;
            DebugRunCommand (Probe.command 1 1 2);
            DebugSetState ControllerState.ENABLED 0].
Proof.
  intros c1 c2.
  repeat split; try (vm_compute; reflexivity).
  vm_compute. discriminate.
Qed.


End Instances.

(** ** Further properties of the engine *)

Ltac run_monad :=
  unfold do_enable, do_standby, do_clear_error, do_enable_drives,
    assert_stationary, assert_state, set_state, write_config,
    write_command_status, update_and_get_header, write_from, current_tai,
    connect_callback, close_client, tcpip_set_connected, cancel, new_future,
    log_record, lift_plant, lift_outcome, bind, gets, modify, raise, ret;
  simpl.

Section Transitions.
Context `{Dv : Device}.

(** A command whose method returns, followed by a hook that returns. *)
Lemma run_command_returns (command : Command.t) (key : CommandKey)
  (m : Method.t) (c c1 : Mock) (d : option Q) :
  Command.code command ∈ CommandCode_members ->
  get_command_key command = Return key ->
  command_table !! key = Some m ->
  hook_returns command m ->
  call m command (set_log (log c ++ [DebugRunCommand command]) c)
  = (Return d, c1) ->
  exists c2,
    run_command command c = (Return d, c2) /\
    telemetry (plant c2) = telemetry (plant c1) /\
    wire c2 = wire c1 /\ log c2 = log c1 /\ headers c2 = headers c1.
Proof.
  intros Hv Hk Hm Hh Hcall.
  rewrite (run_command_dispatched command key m c Hv Hk Hm), Hcall.
  unfold lift_plant. destruct (Hh (plant c1)) as (p' & Hhook & Htel).
  rewrite Hhook. eexists. split; [reflexivity|]. simpl. now repeat split.
Qed.

Lemma do_enable_accepted (command : Command.t) (c : Mock) :
  state c = ControllerState.STANDBY ->
  do_enable command c = (Return None, snd (set_state ControllerState.ENABLED c)).
Proof.
  intros Hs. run_monad.
  destruct (decide (state c <> ControllerState.STANDBY)); [contradiction|].
  reflexivity.
Qed.

Lemma do_standby_accepted (command : Command.t) (c : Mock) :
  state c = ControllerState.ENABLED ->
  do_standby command c = (Return None, snd (set_state ControllerState.STANDBY c)).
Proof.
  intros Hs. run_monad.
  destruct (decide (state c <> ControllerState.ENABLED)); [contradiction|].
  reflexivity.
Qed.

(** How a state-transition method that accepts the command answers it. *)
Lemma transition_acknowledged (command : Command.t) (key : CommandKey)
  (m : Method.t) (target : ControllerState.t) (c : Mock) :
  Command.code command ∈ CommandCode_members ->
  get_command_key command = Return key ->
  command_table !! key = Some m ->
  hook_returns command m ->
  connected c = true ->
  (forall c0, state c0 = state c ->
     call m command c0 = (Return None, snd (set_state target c0))) ->
  exists c2,
    read_and_dispatch command c = (Return tt, c2) /\
    statuses (wire c2) =
    statuses (wire c)
    ++ [(Command.counter command,
         CommandStatus.mk CommandStatusCode.ACK 0%Q "")] /\
    state c2 = target /\ enabled_substate c2 = substate_for target /\
    connected c2 = true.
Proof.
  intros Hv Hk Hm Hh Hc Hcall.
  set (c0 := set_log (log c ++ [DebugRunCommand command]) c).
  destruct (run_command_returns command key m c _ None Hv Hk Hm Hh
              (Hcall c0 eq_refl)) as (c1 & Hrun & Htel & _).
  pose proof (read_and_dispatch_answers command c Hc) as Hans.
  rewrite Hrun in Hans. cbn [fst snd reply] in Hans.
  destruct Hans as (c2 & Hrd & Hw & Hpl & Hc2 & _).
  exists c2. split; [exact Hrd|]. split; [exact Hw|].
  unfold state, enabled_substate. rewrite Hpl, Htel. now repeat split.
Qed.

(** X1. The enable command in STANDBY: one ACK with duration 0 and the
    counter of the command, and the controller is ENABLED and STATIONARY. *)
Theorem enable_is_acknowledged (command : Command.t) (key : CommandKey)
  (c : Mock) :
  Command.code command ∈ CommandCode_members ->
  get_command_key command = Return key ->
  command_table !! key = Some Method.do_enable ->
  hook_returns command Method.do_enable ->
  connected c = true ->
  state c = ControllerState.STANDBY ->
  exists c2,
    read_and_dispatch command c = (Return tt, c2) /\
    statuses (wire c2) =
    statuses (wire c)
    ++ [(Command.counter command,
         CommandStatus.mk CommandStatusCode.ACK 0%Q "")] /\
    state c2 = ControllerState.ENABLED /\
    enabled_substate c2 = STATIONARY /\
    connected c2 = true.
Proof.
  intros Hv Hk Hm Hh Hc Hs.
  apply (transition_acknowledged command key Method.do_enable
           ControllerState.ENABLED c Hv Hk Hm Hh Hc).
  intros c0 Hc0. apply do_enable_accepted. congruence.
Qed.

(** X2. The standby command in ENABLED, whatever the substate: one ACK with
    duration 0, and the controller is in STANDBY with substate 0. *)
Theorem standby_is_acknowledged (command : Command.t) (key : CommandKey)
  (c : Mock) :
  Command.code command ∈ CommandCode_members ->
  get_command_key command = Return key ->
  command_table !! key = Some Method.do_standby ->
  hook_returns command Method.do_standby ->
  connected c = true ->
  state c = ControllerState.ENABLED ->
  exists c2,
    read_and_dispatch command c = (Return tt, c2) /\
    statuses (wire c2) =
    statuses (wire c)
    ++ [(Command.counter command,
         CommandStatus.mk CommandStatusCode.ACK 0%Q "")] /\
    state c2 = ControllerState.STANDBY /\
    enabled_substate c2 = 0 /\
    connected c2 = true.
Proof.
  intros Hv Hk Hm Hh Hc Hs.
  apply (transition_acknowledged command key Method.do_standby
           ControllerState.STANDBY c Hv Hk Hm Hh Hc).
  intros c0 Hc0. apply do_standby_accepted. congruence.
Qed.

(** X3. Enable followed by standby, read one after the other from a
    controller in STANDBY: the read loop returns, both are acknowledged in
    that order, and the controller is back in STANDBY with substate 0. *)
Theorem enable_then_standby (enable standby : Command.t)
  (key_e key_s : CommandKey) (c : Mock) :
  Command.code enable ∈ CommandCode_members ->
  get_command_key enable = Return key_e ->
  command_table !! key_e = Some Method.do_enable ->
  hook_returns enable Method.do_enable ->
  Command.code standby ∈ CommandCode_members ->
  get_command_key standby = Return key_s ->
  command_table !! key_s = Some Method.do_standby ->
  hook_returns standby Method.do_standby ->
  connected c = true ->
  state c = ControllerState.STANDBY ->
  exists c2,
    read_loop [enable; standby] c = (Return tt, c2) /\
    statuses (wire c2) =
    statuses (wire c)
    ++ [(Command.counter enable,
         CommandStatus.mk CommandStatusCode.ACK 0%Q "");
        (Command.counter standby,
         CommandStatus.mk CommandStatusCode.ACK 0%Q "")] /\
    state c2 = ControllerState.STANDBY /\ enabled_substate c2 = 0.
Proof.
  intros Hv Hk Hm Hh Hv' Hk' Hm' Hh' Hc Hs.
  destruct (transition_acknowledged enable key_e Method.do_enable
              ControllerState.ENABLED c Hv Hk Hm Hh Hc)
    as (c1 & Hrd1 & Hw1 & Hs1 & _ & Hc1).
  { intros c0 Hc0. apply do_enable_accepted. congruence. }
  destruct (transition_acknowledged standby key_s Method.do_standby
              ControllerState.STANDBY c1 Hv' Hk' Hm' Hh' Hc1)
    as (c2 & Hrd2 & Hw2 & Hs2 & He2 & _).
  { intros c0 Hc0. apply do_standby_accepted. congruence. }
  exists c2. cbn [read_loop]. unfold bind. rewrite Hrd1, Hrd2.
  split; [reflexivity|]. rewrite Hw2, Hw1, <- app_assoc. now repeat split.
Qed.

End Transitions.

Section Publishing.
Context `{Dv : Device}.

Lemma do_enable_drives_frame (command : Command.t) (c : Mock) :
  connected c = true ->
  exists c' f,
    do_enable_drives command c = (Return None, c') /\
    wire c' = wire c ++ [f] /\
    frame_payload f
    = ConfigData (Config.mk (py_bool (Command.param1 command))) /\
    telemetry (plant c') = telemetry (plant c).
Proof.
  intros Hc. run_monad. rewrite Hc. simpl.
  eexists _, _. split; [reflexivity|]. simpl. now repeat split.
Qed.

Lemma write_command_status_frame (n : Z) (st : CommandStatusCode.t) (d : Q)
  (r : string) (c : Mock) :
  connected c = true ->
  exists c' h,
    write_command_status n st (Some d) r c = (Return tt, c') /\
    wire c' = wire c
              ++ [mkFrame h (CommandStatusData
                    (CommandStatus.mk st d
                       (truncate COMMAND_STATUS_REASON_LEN r)))] /\
    Header.counter h = n /\ plant c' = plant c.
Proof.
  intros Hc. run_monad. rewrite Hc. simpl.
  eexists _, _. split; [reflexivity|]. simpl. now repeat split.
Qed.

(** X4. [do_enable_drives] on a connected controller: the drives flag of
    the configuration becomes [bool(param1)], one Config record with the new
    flag is written at once under the retained CONFIG header, stamped with
    the current time, and the method returns None; the telemetry is not
    touched. *)
Theorem enable_drives_publishes_config (command : Command.t) (c : Mock) :
  connected c = true ->
  exists c' f,
    do_enable_drives command c = (Return None, c') /\
    wire c' = wire c ++ [f] /\
    frame_payload f
    = ConfigData (Config.mk (py_bool (Command.param1 command))) /\
    frame_header f = headers c' FrameId.CONFIG /\
    Header.tai_sec (frame_header f) = int_of_Q (clock c (clock_reads c)) /\
    config (plant c') = Config.mk (py_bool (Command.param1 command)) /\
    telemetry (plant c') = telemetry (plant c) /\
    device (plant c') = device (plant c).
Proof.
  intros Hc. run_monad. rewrite Hc. simpl.
  eexists _, _. split; [reflexivity|]. simpl.
  split; [reflexivity|]. split; [reflexivity|]. split; [reflexivity|].
  split; [apply int_of_Q_inject_Z|]. now repeat split.
Qed.

(** X5. [do_enable_drives] with no client connected: it raises the error of
    the transport and writes nothing, yet the drives flag has already been
    changed and the CONFIG header stamped. *)
Theorem enable_drives_without_client (command : Command.t) (c : Mock) :
  connected c = false ->
  exists c',
    do_enable_drives command c = (Raise (Exception "Not connected"), c') /\
    wire c' = wire c /\
    config (plant c') = Config.mk (py_bool (Command.param1 command)) /\
    Header.tai_sec (headers c' FrameId.CONFIG)
    = int_of_Q (clock c (clock_reads c)) /\
    telemetry (plant c') = telemetry (plant c).
Proof.
  intros Hc. run_monad. rewrite Hc. simpl.
  eexists. split; [reflexivity|]. simpl.
  split; [reflexivity|]. split; [reflexivity|].
  split; [apply int_of_Q_inject_Z|reflexivity].
Qed.

(** X6. [write_command_status] changes the retained COMMAND_STATUS header in
    place, connected or not: afterwards it carries the counter given and the
    current time, its frame_id as before, and the CONFIG and TELEMETRY
    headers are as they were. When a client is connected the record written
    goes out under exactly that header. *)
Theorem write_command_status_uses_retained_header (n : Z)
  (st : CommandStatusCode.t) (d : option Q) (r : string) (c : Mock) :
  let c' := snd (write_command_status n st d r c) in
  let h := headers c' FrameId.COMMAND_STATUS in
  Header.counter h = n /\
  Header.tai_sec h = int_of_Q (clock c (clock_reads c)) /\
  Header.frame_id h = Header.frame_id (headers c FrameId.COMMAND_STATUS) /\
  headers c' FrameId.CONFIG = headers c FrameId.CONFIG /\
  headers c' FrameId.TELEMETRY = headers c FrameId.TELEMETRY /\
  (connected c = true ->
   fst (write_command_status n st d r c) = Return tt /\
   exists s, wire c' = wire c ++ [mkFrame h (CommandStatusData s)]) /\
  (connected c = false ->
   fst (write_command_status n st d r c) = Raise (Exception "Not connected") /\
   wire c' = wire c).
Proof.
  run_monad. destruct (connected c); simpl.
  - split; [reflexivity|]. split; [apply int_of_Q_inject_Z|].
    repeat split; try reflexivity; try discriminate.
    eexists. reflexivity.
  - split; [reflexivity|]. split; [apply int_of_Q_inject_Z|].
    repeat split; try reflexivity; discriminate.
Qed.

(** X7. The enable-drives command through the dispatcher, on a connected
    controller with a hook that returns: exactly two records are written,
    first the Config record with the new drives flag, then the ACK for the
    command with duration 0. *)
Theorem enable_drives_command_writes_config_then_ack (command : Command.t)
  (key : CommandKey) (c : Mock) :
  Command.code command ∈ CommandCode_members ->
  get_command_key command = Return key ->
  command_table !! key = Some Method.do_enable_drives ->
  hook_returns command Method.do_enable_drives ->
  connected c = true ->
  exists c2 f1 f2,
    read_and_dispatch command c = (Return tt, c2) /\
    wire c2 = wire c ++ [f1; f2] /\
    frame_payload f1
    = ConfigData (Config.mk (py_bool (Command.param1 command))) /\
    frame_payload f2
    = CommandStatusData (CommandStatus.mk CommandStatusCode.ACK 0%Q "") /\
    Header.counter (frame_header f2) = Command.counter command /\
    state c2 = state c /\ enabled_substate c2 = enabled_substate c.
Proof.
  intros Hv Hk Hm Hh Hc.
  set (c0 := set_log (log c ++ [DebugRunCommand command]) c).
  destruct (do_enable_drives_frame command c0 Hc)
    as (c1 & f1 & Hcall & Hw1 & Hp1 & Ht1).
  destruct (run_command_returns command key Method.do_enable_drives c c1 None
              Hv Hk Hm Hh Hcall) as (c1' & Hrun & Htel & Hw1' & _).
  pose proof (run_command_same_session command c) as (Hcc & _).
  rewrite Hrun in Hcc. cbn [snd] in Hcc. rewrite Hc in Hcc.
  unfold read_and_dispatch. rewrite Hrun.
  destruct (write_command_status_frame (Command.counter command)
              CommandStatusCode.ACK 0%Q "" c1' Hcc)
    as (c2 & h & Hrun2 & Hw2 & Hn & Hpl).
  rewrite Hrun2.
  exists c2, f1. eexists. split; [reflexivity|].
  split; [rewrite Hw2, Hw1', Hw1; change (wire c0) with (wire c);
          now rewrite <- app_assoc|].
  split; [exact Hp1|].
  split; [cbn [frame_payload]; unfold truncate;
          now destruct COMMAND_STATUS_REASON_LEN|].
  split; [exact Hn|].
  unfold state, enabled_substate. rewrite Hpl, Htel, Ht1. now split.
Qed.

End Publishing.

Section Dispatching.
Context `{Dv : Device}.

(** X8. [assert_stationary] never changes the controller and returns exactly
    when the state is ENABLED and the substate STATIONARY; otherwise it
    raises [CommandError] with a non-empty message. Right after
    [set_state s] it therefore returns if and only if [s] is ENABLED. *)
Theorem assert_stationary_after_set_state (s : ControllerState.t) (c : Mock) :
  snd (assert_stationary c) = c /\
  (fst (assert_stationary c) = Return tt <->
   state c = ControllerState.ENABLED /\ enabled_substate c = STATIONARY) /\
  (fst (assert_stationary c) <> Return tt ->
   exists msg, fst (assert_stationary c) = Raise (CommandError msg) /\ msg <> "") /\
  (fst ((set_state s ;; assert_stationary) c) = Return tt <->
   s = ControllerState.ENABLED).
Proof.
  split; [apply assert_state_keeps|].
  assert (Hiff : forall c0 : Mock,
    fst (assert_stationary c0) = Return tt <->
    state c0 = ControllerState.ENABLED /\ enabled_substate c0 = STATIONARY).
  { intros c0. run_monad.
    destruct (decide (state c0 <> ControllerState.ENABLED)) as [Hs|Hs]; simpl.
    - split; [discriminate|]. intros [He _]. contradiction.
    - destruct (decide (enabled_substate c0 <> STATIONARY)) as [He|He]; simpl.
      + split; [discriminate|]. intros [_ He']. contradiction.
      + split; [|reflexivity]. intros _.
        split; [now destruct (decide (state c0 = ControllerState.ENABLED))|].
        now destruct (decide (enabled_substate c0 = STATIONARY)). }
  split; [apply Hiff|]. split.
  - run_monad.
    destruct (decide (state c <> ControllerState.ENABLED)); simpl.
    + intros _. eexists. split; [reflexivity|discriminate].
    + destruct (decide (enabled_substate c <> STATIONARY)); simpl.
      * intros _. eexists. split; [reflexivity|discriminate].
      * congruence.
  - unfold bind at 1. rewrite set_state_eq. rewrite Hiff.
    unfold state, enabled_substate, substate_for. simpl.
    destruct (decide (s = ControllerState.ENABLED)); intuition congruence.
Qed.

(** X9. A lookup in [command_table]: an entry of [extra_commands] wins over
    a built-in one with the same key; without one, the key
    [(SET_STATE, p)] leads to [do_clear_error], [do_standby] or [do_enable]
    as [p] is the CLEAR_ERROR, STANDBY or ENABLE parameter (the later entry
    of the dict literal winning should two of them coincide), the bare code
    ENABLE_DRIVES leads to [do_enable_drives], and every other key is
    absent. *)
Theorem command_table_lookup (k : CommandKey) :
  (forall m, extra_commands !! k = Some m -> command_table !! k = Some m) /\
  (extra_commands !! k = None ->
   command_table !! k =
   match k with
   | KeyPair code p =>
       if decide (code = CommandCode_SET_STATE) then
         if decide (p = SetStateParam_CLEAR_ERROR) then Some Method.do_clear_error
         else if decide (p = SetStateParam_STANDBY) then Some Method.do_standby
         else if decide (p = SetStateParam_ENABLE) then Some Method.do_enable
         else None
       else None
   | KeyCode code =>
       if decide (code = CommandCode_ENABLE_DRIVES)
       then Some Method.do_enable_drives else None
   end).
Proof.
  unfold command_table. split.
  - intros m Hm. now apply lookup_union_Some_l.
  - intros Hn. rewrite lookup_union_r by exact Hn.
    destruct k as [code|code p].
    + destruct (decide (code = CommandCode_ENABLE_DRIVES)) as [->|Hne].
      * now rewrite lookup_insert_eq.
      * rewrite lookup_insert_ne by congruence.
        now rewrite !lookup_insert_ne, lookup_empty by congruence.
    + rewrite lookup_insert_ne by discriminate.
      destruct (decide (code = CommandCode_SET_STATE)) as [->|Hne].
      * destruct (decide (p = SetStateParam_CLEAR_ERROR)) as [->|H1];
          [now rewrite lookup_insert_eq|].
        rewrite lookup_insert_ne by congruence.
        destruct (decide (p = SetStateParam_STANDBY)) as [->|H2];
          [now rewrite lookup_insert_eq|].
        rewrite lookup_insert_ne by congruence.
        destruct (decide (p = SetStateParam_ENABLE)) as [->|H3];
          [now rewrite lookup_insert_eq|].
        now rewrite lookup_insert_ne, lookup_empty by congruence.
      * now rewrite !lookup_insert_ne, lookup_empty by congruence.
Qed.

(** X10. A SET_STATE or SET_ENABLED_SUBSTATE command whose first parameter
    cannot be converted by [int]: [get_command_key] raises the error of the
    conversion, [run_command] raises it after the debug line and before any
    lookup, so nothing but the log changes, and the client gets one NO_ACK
    with the message of that error. For every other code the parameter is
    not converted and the key is the bare code. *)
Theorem unconvertible_parameter_is_rejected (command : Command.t)
  (msg : string) (c : Mock) :
  (Command.code command
   ∉ [CommandCode_SET_STATE; CommandCode_SET_ENABLED_SUBSTATE] ->
   get_command_key command = Return (KeyCode (Command.code command))) /\
  (Command.code command
   ∈ [CommandCode_SET_STATE; CommandCode_SET_ENABLED_SUBSTATE] ->
   py_int (Command.param1 command) = Raise (Exception msg) ->
   connected c = true ->
   get_command_key command = Raise (Exception msg) /\
   run_command command c
   = (Raise (Exception msg), set_log (log c ++ [DebugRunCommand command]) c) /\
   exists c2,
     read_and_dispatch command c = (Return tt, c2) /\
     statuses (wire c2) =
     statuses (wire c)
     ++ [(Command.counter command,
          CommandStatus.mk CommandStatusCode.NO_ACK 0%Q
            (truncate COMMAND_STATUS_REASON_LEN msg))] /\
     plant c2 = plant c).
Proof.
  split.
  - intros Hn. unfold get_command_key. now destruct (decide _).
  - intros Hin Hint Hc.
    assert (Hkey : get_command_key command = Raise (Exception msg)).
    { unfold get_command_key. destruct (decide _); [|contradiction].
      now rewrite Hint. }
    assert (Hv : Command.code command ∈ CommandCode_members).
    { unfold CommandCode_members.
      apply elem_of_cons in Hin as [->|Hin]; [apply list_elem_of_here|].
      apply list_elem_of_singleton in Hin as ->.
      apply list_elem_of_further, list_elem_of_here. }
    assert (Hrun : run_command command c
      = (Raise (Exception msg), set_log (log c ++ [DebugRunCommand command]) c)).
    { unfold run_command, bind, lift_outcome, log_record, modify.
      now rewrite (CommandCode_member _ Hv), Hkey. }
    split; [exact Hkey|]. split; [exact Hrun|].
    pose proof (read_and_dispatch_answers command c Hc) as Hans.
    rewrite Hrun in Hans. cbn [fst snd reply] in Hans.
    destruct Hans as (c2 & Hrd & Hw & Hpl & _).
    exists c2. split; [exact Hrd|]. split; [exact Hw|]. exact Hpl.
Qed.

(** X11. A hook that fails after a method that returned: [run_command]
    raises the error of the hook, and the client gets NO_ACK with its
    message although the method has run; the telemetry, configuration and
    device data are those the method and the hook left. *)
Theorem failing_hook_is_no_ack (command : Command.t) (key : CommandKey)
  (m : Method.t) (c c1 : Mock) (d : option Q) (e : exn) (msg : string)
  (p : Plant) :
  Command.code command ∈ CommandCode_members ->
  get_command_key command = Return key ->
  command_table !! key = Some m ->
  connected c = true ->
  call m command (set_log (log c ++ [DebugRunCommand command]) c)
  = (Return d, c1) ->
  end_run_command command m (plant c1) = (Raise e, p) ->
  e = CommandError msg \/ e = Exception msg ->
  exists c2,
    run_command command c = (Raise e, set_plant p c1) /\
    read_and_dispatch command c = (Return tt, c2) /\
    statuses (wire c2) =
    statuses (wire c)
    ++ [(Command.counter command,
         CommandStatus.mk CommandStatusCode.NO_ACK 0%Q
           (truncate COMMAND_STATUS_REASON_LEN msg))] /\
    plant c2 = p.
Proof.
  intros Hv Hk Hm Hc Hcall Hhook He.
  assert (Hrun : run_command command c = (Raise e, set_plant p c1)).
  { rewrite (run_command_dispatched command key m c Hv Hk Hm), Hcall.
    unfold lift_plant. now rewrite Hhook. }
  pose proof (read_and_dispatch_answers command c Hc) as Hans.
  rewrite Hrun in Hans. cbn [fst snd] in Hans.
  assert (Hreply : reply (Raise e)
                   = Some (CommandStatus.mk CommandStatusCode.NO_ACK 0%Q
                             (truncate COMMAND_STATUS_REASON_LEN msg)))
    by (destruct He; subst e; reflexivity).
  rewrite Hreply in Hans. destruct Hans as (c2 & Hrd & Hw & Hpl & _).
  exists c2. split; [exact Hrun|]. split; [exact Hrd|]. split; [exact Hw|].
  exact Hpl.
Qed.

End Dispatching.

Section Offline.
Context `{Dv : Device}.

Lemma call_offline (m : Method.t) (command : Command.t) (c : Mock) :
  connected c = false -> wire (snd (call m command c)) = wire c.
Proof.
  intros Hc. destruct m; simpl.
  - run_monad. now destruct (decide _).
  - run_monad. now destruct (decide _).
  - run_monad. now destruct (decide _).
  - run_monad. now rewrite Hc.
  - unfold lift_plant. now destruct (f command (plant c)).
Qed.

Lemma run_command_offline (command : Command.t) (c : Mock) :
  connected c = false ->
  wire (snd (run_command command c)) = wire c /\
  connected (snd (run_command command c)) = false.
Proof.
  intros Hc. split.
  - unfold run_command, bind, lift_outcome, log_record, modify.
    destruct (CommandCode (Command.code command)); [|reflexivity].
    cbn [fst snd].
    destruct (get_command_key command) as [key|e]; [|reflexivity].
    destruct (command_table !! key) as [m|]; [|reflexivity].
    pose proof (call_offline m command
                  (set_log (log c ++ [DebugRunCommand command]) c) Hc) as Hw.
    destruct (call m command _) as [[d|e] c1]; cbn [fst snd] in *;
      [|exact Hw].
    unfold lift_plant.
    destruct (end_run_command command m (plant c1)) as [[[]|e] p];
      exact Hw.
  - destruct (run_command_same_session command c) as (Hcc & _). congruence.
Qed.

(** X12. A command dispatched while no client is connected: nothing is
    written, and unless the command was cancelled [read_and_dispatch] raises
    the error of the transport instead of returning; what the command method
    did to the telemetry, the configuration and the device data stays. *)
Theorem dispatch_without_client (command : Command.t) (c : Mock) :
  connected c = false ->
  wire (snd (read_and_dispatch command c)) = wire c /\
  plant (snd (read_and_dispatch command c))
  = plant (snd (run_command command c)) /\
  (fst (run_command command c) <> Raise CancelledError ->
   fst (read_and_dispatch command c) = Raise (Exception "Not connected")) /\
  (fst (run_command command c) = Raise CancelledError ->
   fst (read_and_dispatch command c) = Raise CancelledError).
Proof.
  intros Hc. destruct (run_command_offline command c Hc) as [Hw Hcc].
  unfold read_and_dispatch.
  destruct (run_command command c) as [[d|[msg|msg|]] c1]; cbn [fst snd] in *.
  - run_monad. rewrite Hcc. simpl. now repeat split.
  - run_monad. rewrite Hcc. simpl. now repeat split.
  - run_monad. rewrite Hcc. simpl. now repeat split.
  - now repeat split.
Qed.

End Offline.

Section Clock.
Context `{Dv : Device}.

Lemma Qfloor_unique (x : Q) (n : Z) :
  (inject_Z n <= x)%Q -> (x < inject_Z (n + 1))%Q -> Qfloor x = n.
Proof.
  intros Hl Hu.
  assert (H1 : n <= Qfloor x).
  { rewrite <- (Qfloor_Z n). now apply Qfloor_resp_le. }
  assert (H2 : Qfloor x < n + 1).
  { rewrite Zlt_Qlt. eapply Qle_lt_trans; [apply Qfloor_le|exact Hu]. }
  lia.
Qed.

Lemma Qfloor_nanoseconds (t : Q) :
  Qfloor (t * 1000000000)
  = Qfloor t * 1000000000
    + Qfloor ((t - inject_Z (Qfloor t)) * 1000000000).
Proof.
  set (s := Qfloor t). set (f := (t - inject_Z s)%Q).
  assert (Ht : (t * 1000000000 == inject_Z (s * 1000000000) + f * 1000000000)%Q).
  { unfold f. rewrite inject_Z_mult. change (inject_Z 1000000000) with 1000000000%Q.
    ring. }
  pose proof (Qfloor_le (f * 1000000000)) as Hl.
  pose proof (Qlt_floor (f * 1000000000)) as Hu.
  apply Qfloor_unique.
  - rewrite Ht, inject_Z_plus. now apply Qplus_le_r.
  - rewrite Ht, <- Z.add_assoc, inject_Z_plus. now apply Qplus_lt_r.
Qed.

Lemma stamped_nanoseconds (frame_id : FrameId.t) (c : Mock) :
  (0 <= clock c (clock_reads c))%Q ->
  nanoseconds (headers (snd (update_and_get_header frame_id c)) frame_id)
  = Qfloor (clock c (clock_reads c) * 1000000000).
Proof.
  intros Ht. unfold nanoseconds. simpl.
  destruct (decide (frame_id = frame_id)); [|congruence]. simpl.
  set (t := clock c (clock_reads c)) in *.
  destruct (Qfloor_fraction t) as [Hf0 Hf1].
  rewrite int_of_Q_inject_Z, (int_of_Q_nonneg t Ht).
  rewrite (int_of_Q_nonneg ((t - inject_Z (Qfloor t)) * 1000000000)).
  - symmetry. apply Qfloor_nanoseconds.
  - apply Qmult_le_0_compat; [exact Hf0|]. unfold Qle; simpl; lia.
Qed.

(** X14. For a current time [t >= 0] the header that
    [update_and_get_header] has stamped holds exactly the whole number of
    nanoseconds of [t]: [tai_sec * 10^9 + tai_nsec] is the floor of
    [t * 10^9]; so the header tells [t] to within one nanosecond. *)
Theorem header_holds_whole_nanoseconds (frame_id : FrameId.t) (c : Mock) :
  let t := clock c (clock_reads c) in
  let h := headers (snd (update_and_get_header frame_id c)) frame_id in
  (0 <= t)%Q ->
  nanoseconds h = Qfloor (t * 1000000000) /\
  (inject_Z (nanoseconds h) <= t * 1000000000)%Q /\
  (t * 1000000000 < inject_Z (nanoseconds h + 1))%Q.
Proof.
  intros t h Ht. unfold h. rewrite (stamped_nanoseconds frame_id c Ht).
  fold t. split; [reflexivity|]. split; [apply Qfloor_le|apply Qlt_floor].
Qed.

(** X15. Two headers stamped one after the other, of the same kind or not:
    when the clock has not gone back between the two readings, neither has
    the time of the headers. *)
Theorem stamps_follow_the_clock (k1 k2 : FrameId.t) (c : Mock) :
  let c1 := snd (update_and_get_header k1 c) in
  let c2 := snd (update_and_get_header k2 c1) in
  (0 <= clock c (clock_reads c))%Q ->
  (clock c (clock_reads c) <= clock c (S (clock_reads c)))%Q ->
  nanoseconds (headers c1 k1) <= nanoseconds (headers c2 k2).
Proof.
  intros c1 c2 H0 Hle. unfold c2.
  assert (Hc1 : clock c1 (clock_reads c1) = clock c (S (clock_reads c)))
    by reflexivity.
  rewrite (stamped_nanoseconds k2 c1).
  - rewrite Hc1. unfold c1. rewrite (stamped_nanoseconds k1 c H0).
    apply Qfloor_resp_le. apply Qmult_le_compat_r; [exact Hle|].
    unfold Qle; simpl; lia.
  - rewrite Hc1. eapply Qle_trans; eassumption.
Qed.

End Clock.

Section Frames.
Context `{Dv : Device}.

Lemma frames_in_order_plant (p : Plant) (c : Mock) :
  frames_in_order c -> frames_in_order (set_plant p c).
Proof. intros Hi. exact Hi. Qed.

Lemma frames_in_order_log (l : list LogRecord) (c : Mock) :
  frames_in_order c -> frames_in_order (set_log l c).
Proof. intros Hi. exact Hi. Qed.

Lemma update_header_keyed (k : FrameId.t) (f : Header.t -> Header.t) (c : Mock) :
  (forall h, Header.frame_id (f h) = Header.frame_id h) ->
  frames_in_order c -> frames_in_order (update_header k f c).
Proof.
  intros Hf [Hk Hw]. split; [|exact Hw].
  intros k'. simpl. destruct (decide (k' = k)); [|apply Hk].
  now rewrite Hf.
Qed.

Lemma update_and_get_header_in_order (k : FrameId.t) (c : Mock) :
  frames_in_order c -> frames_in_order (snd (update_and_get_header k c)).
Proof.
  intros Hi. run_monad. apply update_header_keyed; [reflexivity|exact Hi].
Qed.

Lemma write_from_in_order (k : FrameId.t) (payload : Mock -> Payload)
  (c : Mock) :
  kind_of (payload c) = k ->
  frames_in_order c -> frames_in_order (snd (write_from k payload c)).
Proof.
  intros Hp [Hk Hw]. unfold write_from. destruct (connected c); simpl;
    [|now split].
  split; [exact Hk|]. apply Forall_app. split; [exact Hw|].
  constructor; [|constructor]. unfold well_kinded. simpl. now rewrite Hk, Hp.
Qed.

Lemma write_config_in_order (c : Mock) :
  frames_in_order c -> frames_in_order (snd (write_config c)).
Proof.
  intros Hi. unfold write_config, bind.
  pose proof (update_and_get_header_in_order FrameId.CONFIG c Hi) as H1.
  destruct (update_and_get_header FrameId.CONFIG c) as [[[k t]|e] c1] eqn:Hu;
    [|exact H1].
  assert (k = FrameId.CONFIG) as -> by (revert Hu; run_monad; congruence).
  now apply write_from_in_order.
Qed.

Lemma write_command_status_in_order (n : Z) (st : CommandStatusCode.t)
  (d : option Q) (r : string) (c : Mock) :
  frames_in_order c ->
  frames_in_order (snd (write_command_status n st d r c)).
Proof.
  intros Hi. unfold write_command_status, bind.
  pose proof (update_and_get_header_in_order FrameId.COMMAND_STATUS c Hi) as H1.
  destruct (update_and_get_header FrameId.COMMAND_STATUS c)
    as [[[k t]|e] c1] eqn:Hu; [|exact H1].
  assert (k = FrameId.COMMAND_STATUS) as ->
    by (revert Hu; run_monad; congruence).
  unfold modify. cbn [fst snd].
  apply write_from_in_order; [reflexivity|].
  apply update_header_keyed; [reflexivity|exact H1].
Qed.

Lemma lift_plant_in_order {A} (m : M Plant A) (c : Mock) :
  frames_in_order c -> frames_in_order (snd (lift_plant m c)).
Proof. intros Hi. unfold lift_plant. now destruct (m (plant c)). Qed.

Lemma call_in_order (m : Method.t) (command : Command.t) (c : Mock) :
  frames_in_order c -> frames_in_order (snd (call m command c)).
Proof.
  intros Hi. destruct m; simpl.
  - run_monad. now destruct (decide _).
  - run_monad. now destruct (decide _).
  - run_monad. now destruct (decide _).
  - unfold do_enable_drives, bind, modify. cbn [fst snd].
    pose proof (write_config_in_order
      (set_config (Config.mk (py_bool (Command.param1 command))) c) Hi) as Hw.
    now destruct (write_config _) as [[[]|e] c1].
  - now apply lift_plant_in_order.
Qed.

Lemma run_command_in_order (command : Command.t) (c : Mock) :
  frames_in_order c -> frames_in_order (snd (run_command command c)).
Proof.
  intros Hi. unfold run_command, bind, lift_outcome, log_record, modify.
  destruct (CommandCode (Command.code command)); [|exact Hi]. cbn [fst snd].
  destruct (get_command_key command) as [key|e]; [|exact Hi].
  destruct (command_table !! key) as [m|]; [|exact Hi].
  pose proof (call_in_order m command
                (set_log (log c ++ [DebugRunCommand command]) c) Hi) as Hc.
  destruct (call m command _) as [[d|e] c1]; cbn [fst snd] in *; [|exact Hc].
  pose proof (lift_plant_in_order (end_run_command command m) c1 Hc) as Hh.
  now destruct (lift_plant (end_run_command command m) c1) as [[[]|e] c2].
Qed.

Lemma read_and_dispatch_in_order (command : Command.t) (c : Mock) :
  frames_in_order c -> frames_in_order (snd (read_and_dispatch command c)).
Proof.
  intros Hi. pose proof (run_command_in_order command c Hi) as Hr.
  unfold read_and_dispatch.
  destruct (run_command command c) as [[d|[msg|msg|]] c1]; cbn [fst snd] in *.
  - now apply write_command_status_in_order.
  - now apply write_command_status_in_order.
  - unfold bind at 1, log_record, modify. cbn [fst snd].
    now apply write_command_status_in_order.
  - exact Hr.
Qed.

Lemma telemetry_tick_in_order (c : Mock) :
  frames_in_order c -> frames_in_order (snd (telemetry_tick c)).
Proof.
  intros Hi. unfold telemetry_tick, bind.
  pose proof (update_and_get_header_in_order FrameId.TELEMETRY c Hi) as H1.
  destruct (update_and_get_header FrameId.TELEMETRY c)
    as [[[k t]|e] c1] eqn:Hu; [|exact H1].
  assert (k = FrameId.TELEMETRY) as -> by (revert Hu; run_monad; congruence).
  pose proof (lift_plant_in_order (update_telemetry t) c1 H1) as H2.
  destruct (lift_plant (update_telemetry t) c1) as [[[]|e] c2];
    cbn [fst snd] in *; [|exact H2].
  now apply write_from_in_order.
Qed.

Lemma telemetry_while_in_order (schedule : list Wake) (c : Mock) :
  frames_in_order c -> frames_in_order (snd (telemetry_while schedule c)).
Proof.
  revert c. induction schedule as [|w rest IH]; intros c Hi; simpl;
    (destruct (connected c); [|exact Hi]);
    pose proof (telemetry_tick_in_order c Hi) as Ht;
    destruct (telemetry_tick c) as [[[]|e] c1]; cbn [fst snd] in *;
    try exact Ht.
  destruct w; simpl; [now apply IH| |exact Ht].
  apply IH. exact Ht.
Qed.

Lemma telemetry_loop_in_order (schedule : list Wake) (c : Mock) :
  frames_in_order c -> frames_in_order (snd (telemetry_loop schedule c)).
Proof.
  intros Hi. unfold telemetry_loop, telemetry_try.
  set (c0 := snd (log_record (LogInfo "telemetry_loop begins") c)).
  assert (Hc0 : frames_in_order c0) by exact Hi.
  assert (H1 : frames_in_order
            (snd (if connected c0 then write_config c0 else (Return tt, c0)))).
  { destruct (connected c0); [now apply write_config_in_order|exact Hc0]. }
  destruct (if connected c0 then write_config c0 else (Return tt, c0))
    as [[[]|e] c1]; cbn [fst snd] in H1.
  - pose proof (telemetry_while_in_order schedule c1 H1) as H2.
    destruct (telemetry_while schedule c1) as [[[[]|e]|] c2];
      cbn [fst snd] in *; try exact H2.
    destruct e; exact H2.
  - destruct e; exact H1.
Qed.

Lemma step_in_order (e : Event) (c : Mock) :
  frames_in_order c -> frames_in_order (step e c).
Proof.
  intros Hi. destruct e; simpl.
  - unfold client_connects. run_monad.
    destruct (decide (connected c = true)); [exact Hi|]. simpl. exact Hi.
  - run_monad. destruct (decide (connected c = false)); [exact Hi|].
    simpl. exact Hi.
  - run_monad. destruct (decide (connected c = false)); [exact Hi|].
    simpl. exact Hi.
  - run_monad. now destruct (connected c).
  - now apply read_and_dispatch_in_order.
  - now apply telemetry_loop_in_order.
  - exact Hi.
Qed.

Lemma run_in_order (events : list Event) (c : Mock) :
  frames_in_order c -> frames_in_order (run events c).
Proof.
  revert c. induction events as [|e rest IH]; intros c Hi; [exact Hi|].
  simpl. apply IH. now apply step_in_order.
Qed.

(** X17. Whatever happens to a controller after its construction, every
    retained header keeps the frame id it was created with and every record
    ever written goes out under the header of its own kind: Config under
    CONFIG, Telemetry under TELEMETRY, command statuses under
    COMMAND_STATUS. *)
Theorem frames_carry_their_kind (config0 : Config.t) (telemetry0 : Telemetry.t)
  (device0 : Dev) (initial_state : ControllerState.t) (clock0 : nat -> Q)
  (events : list Event) :
  let c := run events (init config0 telemetry0 device0 initial_state clock0) in
  (forall k, Header.frame_id (headers c k) = k) /\
  (forall f, f ∈ wire c ->
     Header.frame_id (frame_header f) = kind_of (frame_payload f)).
Proof.
  intros c.
  assert (Hi : frames_in_order c).
  { apply run_in_order. split; [reflexivity|constructor]. }
  destruct Hi as [Hk Hw]. split; [exact Hk|].
  intros f Hf. rewrite Forall_forall in Hw. now apply Hw.
Qed.

End Frames.

Section Cadence.
Context `{Dv : Device}.

Lemma telemetry_tick_returns (c : Mock) (p' : Plant) :
  connected c = true ->
  update_telemetry (clock c (clock_reads c)) (plant c) = (Return tt, p') ->
  exists c' f,
    telemetry_tick c = (Return tt, c') /\
    wire c' = wire c ++ [f] /\
    frame_payload f = TelemetryData (telemetry p') /\
    frame_header f = headers c' FrameId.TELEMETRY /\
    Header.tai_sec (frame_header f) = int_of_Q (clock c (clock_reads c)) /\
    plant c' = p' /\ connected c' = true /\
    clock c' = clock c /\ clock_reads c' = S (clock_reads c) /\
    log c' = log c.
Proof.
  intros Hc Hu. unfold telemetry_tick. run_monad. rewrite Hu. simpl.
  rewrite Hc. eexists _, _. split; [reflexivity|]. simpl.
  split; [reflexivity|]. split; [reflexivity|]. split; [reflexivity|].
  split; [apply int_of_Q_inject_Z|]. now repeat split.
Qed.

(** X18. One round of the telemetry loop on a connected controller whose
    [update_telemetry] returns: the hook is given the time the TELEMETRY
    header is stamped with, and exactly one Telemetry record is written,
    carrying the telemetry as the hook left it. *)
Theorem telemetry_record_follows_update (c : Mock) (p' : Plant) :
  connected c = true ->
  update_telemetry (clock c (clock_reads c)) (plant c) = (Return tt, p') ->
  exists c' f,
    telemetry_tick c = (Return tt, c') /\
    wire c' = wire c ++ [f] /\
    frame_payload f = TelemetryData (telemetry p') /\
    frame_header f = headers c' FrameId.TELEMETRY /\
    Header.tai_sec (frame_header f) = int_of_Q (clock c (clock_reads c)) /\
    plant c' = p'.
Proof.
  intros Hc Hu.
  destruct (telemetry_tick_returns c p' Hc Hu)
    as (c' & f & Ht & Hw & Hp & Hh & Hs & Hpl & _).
  exists c', f. now repeat split.
Qed.

Lemma telemetry_tick_count (c : Mock) :
  update_returns -> connected c = true ->
  exists c',
    telemetry_tick c = (Return tt, c') /\
    length (wire c') = S (length (wire c)) /\
    connected c' = true /\ log c' = log c.
Proof.
  intros Hu Hc.
  destruct (Hu (clock c (clock_reads c)) (plant c)) as (p' & Hp).
  destruct (telemetry_tick_returns c p' Hc Hp)
    as (c' & f & Ht & Hw & _ & _ & _ & _ & Hc' & _ & _ & Hl).
  exists c'. split; [exact Ht|]. rewrite Hw, length_app. simpl.
  split; [lia|]. now split.
Qed.

(** The loop proper, through [n] ticks and then whatever comes. *)
Lemma telemetry_while_ticks (n : nat) (rest : list Wake) (c : Mock) :
  update_returns -> connected c = true ->
  exists c',
    length (wire c') = (n + length (wire c))%nat /\
    connected c' = true /\ log c' = log c /\
    telemetry_while (replicate n Tick ++ rest) c = telemetry_while rest c'.
Proof.
  intros Hu. revert c. induction n as [|n IH]; intros c Hc.
  - exists c. now repeat split.
  - destruct (telemetry_tick_count c Hu Hc) as (c1 & Ht & Hw & Hc1 & Hl).
    destruct (IH c1 Hc1) as (c' & Hw' & Hc' & Hl' & Hrun).
    exists c'. split; [rewrite Hw', Hw; lia|]. split; [exact Hc'|].
    split; [congruence|].
    cbn [replicate app telemetry_while]. now rewrite Hc, Ht.
Qed.

Lemma telemetry_try_ticks (n : nat) (rest : list Wake) (c : Mock) :
  update_returns -> connected c = true ->
  exists c',
    length (wire c') = (S n + length (wire c))%nat /\
    connected c' = true /\ log c' = log c /\
    telemetry_try (replicate n Tick ++ rest) c
    = match telemetry_while rest c' with
      | (Some (Return _), c'') =>
          (Some (Return tt),
           snd (log_record (LogInfo "Socket disconnected") c''))
      | r => r
      end.
Proof.
  intros Hu Hc.
  destruct (write_config_connected c Hc) as (c0 & f & Hrun & Hw & _ & Hc0).
  assert (Hl0 : log c0 = log c).
  { revert Hrun. run_monad. rewrite Hc. intros Hr. now inversion Hr. }
  destruct (telemetry_while_ticks n rest c0 Hu Hc0) as (c' & Hw' & Hc' & Hl' & Ht).
  exists c'. split.
  { rewrite Hw', Hw, length_app. simpl. lia. }
  split; [exact Hc'|]. split; [congruence|].
  unfold telemetry_try. now rewrite Hc, Hrun, Ht.
Qed.

(** X19. The telemetry loop on a connected controller whose
    [update_telemetry] returns, through [n] sleeps that end undisturbed.
    If nothing else happens it is still asleep, having written the Config
    record and [n + 1] Telemetry records. If the client is lost during the
    next sleep it returns after logging "Socket disconnected", and if the
    task is cancelled during it the cancellation is raised; either way the
    Config record and [n + 1] Telemetry records have been written, and what
    the schedule holds after that sleep plays no part. *)
Theorem telemetry_loop_cadence (n : nat) (rest : list Wake) (c : Mock) :
  update_returns -> connected c = true ->
  (exists c',
     telemetry_loop (replicate n Tick) c = (None, c') /\
     length (wire c') = (S (S n) + length (wire c))%nat) /\
  (exists c',
     telemetry_loop (replicate n Tick ++ Hangup :: rest) c
     = (Some (Return tt), c') /\
     length (wire c') = (S (S n) + length (wire c))%nat /\
     connected c' = false /\
     log c' = log c ++ [LogInfo "telemetry_loop begins";
                        LogInfo "Socket disconnected"]) /\
  (exists c',
     telemetry_loop (replicate n Tick ++ Cancel :: rest) c
     = (Some (Raise CancelledError), c') /\
     length (wire c') = (S (S n) + length (wire c))%nat /\
     log c' = log c ++ [LogInfo "telemetry_loop begins"]).
Proof.
  intros Hu Hc.
  set (c0 := snd (log_record (LogInfo "telemetry_loop begins") c)).
  assert (Hc0 : connected c0 = true) by exact Hc.
  split; [|split].
  - destruct (telemetry_try_ticks n [] c0 Hu Hc0)
      as (c1 & Hw & Hc1 & _ & Htry).
    rewrite app_nil_r in Htry.
    destruct (telemetry_tick_count c1 Hu Hc1) as (c2 & Ht & Hw2 & _).
    cbn [telemetry_while] in Htry. rewrite Hc1, Ht in Htry.
    exists c2. unfold telemetry_loop. fold c0. rewrite Htry.
    split; [reflexivity|]. rewrite Hw2, Hw. reflexivity.
  - destruct (telemetry_try_ticks n (Hangup :: rest) c0 Hu Hc0)
      as (c1 & Hw & Hc1 & Hl & Htry).
    destruct (telemetry_tick_count c1 Hu Hc1) as (c2 & Ht & Hw2 & _ & Hl2).
    cbn [telemetry_while] in Htry. rewrite Hc1, Ht in Htry.
    cbn [asyncio_sleep] in Htry. unfold modify in Htry.
    destruct rest as [|w rest']; cbn [telemetry_while connected set_connected]
      in Htry.
    + eexists. unfold telemetry_loop. fold c0. rewrite Htry.
      split; [reflexivity|]. simpl. rewrite Hw2, Hw.
      split; [reflexivity|]. split; [reflexivity|].
      rewrite Hl2, Hl. simpl. now rewrite <- app_assoc.
    + eexists. unfold telemetry_loop. fold c0. rewrite Htry.
      split; [reflexivity|]. simpl. rewrite Hw2, Hw.
      split; [reflexivity|]. split; [reflexivity|].
      rewrite Hl2, Hl. simpl. now rewrite <- app_assoc.
  - destruct (telemetry_try_ticks n (Cancel :: rest) c0 Hu Hc0)
      as (c1 & Hw & Hc1 & Hl & Htry).
    destruct (telemetry_tick_count c1 Hu Hc1) as (c2 & Ht & Hw2 & _ & Hl2).
    cbn [telemetry_while] in Htry. rewrite Hc1, Ht in Htry.
    cbn [asyncio_sleep] in Htry. unfold raise in Htry.
    exists c2. unfold telemetry_loop. fold c0. rewrite Htry.
    split; [reflexivity|]. rewrite Hw2, Hw. split; [reflexivity|].
    rewrite Hl2, Hl. reflexivity.
Qed.

(** X20. An [update_telemetry] that fails in the first round, by anything
    but a cancellation: the loop returns at once whatever the schedule,
    only the Config record has been written, the client is still connected,
    and the failure is the last thing logged. *)
Theorem failing_update_ends_publication (schedule : list Wake) (c : Mock)
  (e : exn) (p' : Plant) :
  connected c = true ->
  update_telemetry (clock c (S (clock_reads c))) (plant c) = (Raise e, p') ->
  e <> CancelledError ->
  exists c' f,
    telemetry_loop schedule c = (Some (Return tt), c') /\
    wire c' = wire c ++ [f] /\ is_config f /\
    connected c' = true /\
    log c' = log c ++ [LogInfo "telemetry_loop begins";
                       LogException "telemetry_loop failed" e].
Proof.
  intros Hc Hu Hne. unfold telemetry_loop, telemetry_try.
  set (c0 := snd (log_record (LogInfo "telemetry_loop begins") c)).
  change (connected c0) with (connected c). rewrite Hc.
  assert (Hcfg : connected c0 = true) by exact Hc.
  destruct (write_config_connected c0 Hcfg) as (c1 & f & Hrun & Hw & Hf & Hc1).
  rewrite Hrun.
  assert (Hshape : plant c1 = plant c /\ clock c1 = clock c /\
                   clock_reads c1 = S (clock_reads c) /\
                   log c1 = log c ++ [LogInfo "telemetry_loop begins"]).
  { revert Hrun. run_monad. rewrite Hc. intros Hr. now inversion Hr. }
  destruct Hshape as (Hp1 & Hk1 & Hr1 & Hl1).
  assert (Htick : exists c2,
            telemetry_tick c1 = (Raise e, c2) /\ wire c2 = wire c1 /\
            connected c2 = true /\ log c2 = log c1).
  { unfold telemetry_tick. run_monad. rewrite Hk1, Hr1, Hp1, Hu. simpl.
    eexists. split; [reflexivity|]. now repeat split. }
  destruct Htick as (c2 & Ht & Hw2 & Hc2 & Hl2).
  assert (Hwhile : telemetry_while schedule c1 = (Some (Raise e), c2)).
  { destruct schedule; simpl; now rewrite Hc1, Ht. }
  rewrite Hwhile.
  exists (snd (log_record (LogException "telemetry_loop failed" e) c2)), f.
  split; [now destruct e|]. simpl.
  split; [now rewrite Hw2, Hw|]. split; [exact Hf|]. split; [exact Hc2|].
  rewrite Hl2, Hl1. now rewrite <- app_assoc.
Qed.

End Cadence.

Section Lifecycle.
Context `{Dv : Device}.

Lemma close_client_eq (c : Mock) :
  close_client c =
  (Return tt,
   let c1 := set_futures
               (alter cancel_state (telemetry_loop_task c) (futures c)) c in
   if connected c
   then set_futures
          (alter cancel_state (telemetry_loop_task c) (futures c1))
          (set_connected false c1)
   else c1).
Proof.
  run_monad. destruct (connected c); simpl.
  - destruct (decide (true = false)); [discriminate|]. reflexivity.
  - destruct (decide (false = false)); [|congruence]. reflexivity.
Qed.

(** X21. [close_client] on a controller in any state reached after its
    construction: it returns, no client is connected afterwards and no
    future is pending any more, so the telemetry task is stopped; the
    telemetry, the configuration and the records written are untouched; and
    closing once more changes neither the futures, nor the task, nor the
    connection. *)
Theorem close_client_stops_the_task (config0 : Config.t)
  (telemetry0 : Telemetry.t) (device0 : Dev)
  (initial_state : ControllerState.t) (clock0 : nat -> Q)
  (events : list Event) :
  let c := run events (init config0 telemetry0 device0 initial_state clock0) in
  let c1 := snd (close_client c) in
  let c2 := snd (close_client c1) in
  fst (close_client c) = Return tt /\
  connected c1 = false /\
  (forall i, futures c1 !! i <> Some Pending) /\
  plant c1 = plant c /\ wire c1 = wire c /\
  futures c2 = futures c1 /\
  telemetry_loop_task c2 = telemetry_loop_task c1 /\
  connected c2 = false.
Proof.
  intros c c1 c2.
  assert (Hinv : one_publisher c).
  { apply run_one_publisher. split; [simpl; lia|].
    intros i Hi. destruct i as [|i]; simpl in Hi; discriminate. }
  destruct Hinv as [_ Hone].
  assert (Hnone : forall i,
    alter cancel_state (telemetry_loop_task c) (futures c) !! i
    <> Some Pending)
    by (intros i; now apply cancelled_none_pending).
  assert (Hidle : alter cancel_state (telemetry_loop_task c)
                    (alter cancel_state (telemetry_loop_task c) (futures c))
                  = alter cancel_state (telemetry_loop_task c) (futures c))
    by (apply cancel_idle, Hnone).
  assert (H1 : connected c1 = false /\
               futures c1
               = alter cancel_state (telemetry_loop_task c) (futures c) /\
               telemetry_loop_task c1 = telemetry_loop_task c /\
               plant c1 = plant c /\ wire c1 = wire c).
  { unfold c1. rewrite close_client_eq. cbn [snd].
    destruct (connected c) eqn:Hc; simpl; [|now rewrite Hc].
    now rewrite Hidle. }
  destruct H1 as (Hc1 & Hf1 & Ht1 & Hp1 & Hw1).
  split; [now rewrite close_client_eq|].
  split; [exact Hc1|]. split; [now rewrite Hf1|].
  split; [exact Hp1|]. split; [exact Hw1|].
  unfold c2. rewrite close_client_eq. cbn [snd]. rewrite Hc1. simpl.
  rewrite Ht1, Hf1, Hidle. now repeat split.
Qed.

Lemma step_lifecycle (e : Event) (c : Mock) :
  lifecycle e ->
  plant (step e c) = plant c /\ wire (step e c) = wire c /\
  log (step e c) = log c /\ headers (step e c) = headers c.
Proof.
  intros He. destruct e; simpl in *; try contradiction.
  - unfold client_connects. run_monad.
    destruct (decide (connected c = true)); [now repeat split|]. simpl.
    now repeat split.
  - run_monad. destruct (decide (connected c = false)); [now repeat split|].
    simpl. now repeat split.
  - rewrite close_client_eq. cbn [snd]. now destruct (connected c).
  - run_monad. now destruct (connected c).
  - now repeat split.
Qed.

(** X22. Connections, losses of the client, calls of [close_client] and
    [connect_callback] and endings of futures, in any number and order,
    change neither the state, the substate, the configuration nor the device
    data, write no record, log nothing and leave the headers alone: what the
    controller holds survives disconnection and reconnection. *)
Theorem lifecycle_keeps_the_plant (events : list Event) (c : Mock) :
  Forall lifecycle events ->
  plant (run events c) = plant c /\
  wire (run events c) = wire c /\
  log (run events c) = log c /\
  headers (run events c) = headers c.
Proof.
  intros Hall. revert c.
  induction Hall as [|e rest He Hrest IH]; intros c; [now repeat split|].
  simpl. destruct (IH (step e c)) as (Hp & Hw & Hl & Hh).
  destruct (step_lifecycle e c He) as (Hp' & Hw' & Hl' & Hh').
  rewrite Hp, Hw, Hl, Hh. now repeat split.
Qed.

End Lifecycle.

Section SimpleCscMethods.
Import SimpleCsc.

Lemma startswith_append (prefix rest : string) :
  startswith (prefix +:+ rest) prefix = true.
Proof.
  induction prefix as [|a prefix IH]; [reflexivity|].
  simpl. now rewrite Ascii.eqb_refl.
Qed.

Lemma slice_from_append (prefix rest : string) :
  slice_from (String.length prefix) (prefix +:+ rest) = rest.
Proof. induction prefix as [|a prefix IH]; [reflexivity|exact IH]. Qed.

Lemma startswith_split (name prefix : string) :
  startswith name prefix = true ->
  name = prefix +:+ slice_from (String.length prefix) name.
Proof.
  revert name. induction prefix as [|a prefix IH]; intros name; [reflexivity|].
  destruct name as [|b name]; simpl; [discriminate|].
  destruct (Ascii.eqb a b) eqn:Hab; [|discriminate].
  apply Ascii.eqb_eq in Hab as ->. intros Hs.
  change (String b name
          = String b (prefix +:+ slice_from (String.length prefix) name)).
  f_equal. now apply IH.
Qed.

Lemma elem_of_dir (self : gmap string Attribute) (name : string) :
  name ∈ dir self <-> is_Some (self !! name).
Proof.
  unfold dir. rewrite list_elem_of_fmap. split.
  - intros ([n a] & -> & Hin). apply elem_of_map_to_list in Hin. now exists a.
  - intros [a Ha]. exists (name, a). split; [reflexivity|].
    now apply elem_of_map_to_list.
Qed.

Lemma elem_of_sliced (prefix : string) (names : list string) (t : string) :
  t ∈ map (slice_from (String.length prefix))
        (List.filter (fun name => startswith name prefix) names)
  <-> prefix +:+ t ∈ names.
Proof.
  rewrite list_elem_of_In, in_map_iff. split.
  - intros (name & <- & Hin). apply filter_In in Hin as [Hin Hs].
    apply list_elem_of_In. now rewrite <- (startswith_split name prefix Hs).
  - intros Hin. apply list_elem_of_In in Hin. exists (prefix +:+ t).
    split; [apply slice_from_append|].
    apply filter_In. split; [exact Hin|apply startswith_append].
Qed.

Lemma supported_iff (self : gmap string Attribute) (t : string) :
  t ∈ supported_command_names self <-> is_Some (self !! ("do_" +:+ t)).
Proof.
  unfold supported_command_names.
  rewrite (elem_of_sliced "do_" (dir self) t). apply elem_of_dir.
Qed.

Lemma topic_names_iff (topics : list string) (t : string) :
  t ∈ topic_names topics <-> "cmd_" +:+ t ∈ topics.
Proof. apply (elem_of_sliced "cmd_"). Qed.

Lemma add_one_extends (topics : list string)
  (self0 self : gmap string Attribute) (t : string) :
  "cmd_" +:+ t ∈ topics ->
  extends topics self0 self ->
  extends topics self0
    (if decide (t ∈ supported_command_names self0) then self
     else <["do_" +:+ t := do_nothing]> self).
Proof.
  intros Ht [Hold Hnew]. destruct (decide _) as [Hs|Hs]; [now split|].
  rewrite supported_iff in Hs. split.
  - intros name a Ha. rewrite lookup_insert_ne; [now apply Hold|].
    intros <-. apply Hs. now exists a.
  - intros name a Hn Ha.
    destruct (decide ("do_" +:+ t = name)) as [<-|Hne].
    + rewrite lookup_insert_eq in Ha. inversion Ha. split; [reflexivity|].
      now exists t.
    + rewrite lookup_insert_ne in Ha by exact Hne. now apply Hnew.
Qed.

Lemma fold_extends (topics : list string) (self0 : gmap string Attribute)
  (ts : list string) (self : gmap string Attribute) :
  (forall t, t ∈ ts -> "cmd_" +:+ t ∈ topics) ->
  extends topics self0 self ->
  extends topics self0
    (foldl (fun self topic_name =>
              if decide (topic_name ∈ supported_command_names self0) then self
              else <["do_" +:+ topic_name := do_nothing]> self) self ts).
Proof.
  revert self. induction ts as [|t ts IH]; intros self Hts He; [exact He|].
  simpl. apply IH.
  - intros t' Ht'. apply Hts. now apply list_elem_of_further.
  - apply add_one_extends; [|exact He]. apply Hts, list_elem_of_here.
Qed.

Lemma fold_keeps (self0 : gmap string Attribute) (ts : list string)
  (self : gmap string Attribute) (name : string) :
  is_Some (self !! name) ->
  is_Some (foldl (fun self topic_name =>
              if decide (topic_name ∈ supported_command_names self0) then self
              else <["do_" +:+ topic_name := do_nothing]> self) self ts
           !! name).
Proof.
  revert self. induction ts as [|t ts IH]; intros self Hs; [exact Hs|].
  simpl. apply IH. destruct (decide _); [exact Hs|].
  destruct (decide ("do_" +:+ t = name)) as [<-|Hne].
  - rewrite lookup_insert_eq. now eexists.
  - now rewrite lookup_insert_ne.
Qed.

Lemma fold_covers (self0 : gmap string Attribute) (ts : list string)
  (self : gmap string Attribute) (t : string) :
  (forall name a, self0 !! name = Some a -> self !! name = Some a) ->
  t ∈ ts ->
  is_Some (foldl (fun self topic_name =>
              if decide (topic_name ∈ supported_command_names self0) then self
              else <["do_" +:+ topic_name := do_nothing]> self) self ts
           !! ("do_" +:+ t)).
Proof.
  revert self. induction ts as [|t' ts IH]; intros self Hold Ht.
  - now apply elem_of_nil in Ht.
  - simpl. apply elem_of_cons in Ht as [->|Ht].
    + apply fold_keeps. destruct (decide _) as [Hs|Hs].
      * rewrite supported_iff in Hs. destruct Hs as [a Ha].
        exists a. now apply Hold.
      * rewrite lookup_insert_eq. now eexists.
    + apply IH; [|exact Ht].
      intros name a Ha. destruct (decide _) as [Hs|Hs]; [now apply Hold|].
      rewrite supported_iff in Hs.
      rewrite lookup_insert_ne; [now apply Hold|].
      intros <-. apply Hs. now exists a.
Qed.

(** X23. After the loop of [SimpleCsc.__init__], whatever attributes the
    object had and whatever the topics are: every topic [cmd_t] has an
    attribute [do_t]; no attribute the object had has been replaced; and
    every attribute that was added is [_do_nothing], under a name [do_t]
    for a topic [cmd_t]. *)
Theorem every_command_topic_has_a_method (topics : list string)
  (self0 : gmap string Attribute) :
  let self := add_do_methods topics self0 in
  (forall t, "cmd_" +:+ t ∈ topics -> is_Some (self !! ("do_" +:+ t))) /\
  (forall name a, self0 !! name = Some a -> self !! name = Some a) /\
  (forall name a, self0 !! name = None -> self !! name = Some a ->
     a = do_nothing /\
     exists t, name = "do_" +:+ t /\ "cmd_" +:+ t ∈ topics).
Proof.
  intros self. unfold self, add_do_methods.
  destruct (fold_extends topics self0 (topic_names topics) self0)
    as [Hold Hnew].
  { intros t. apply topic_names_iff. }
  { split; [auto|]. intros name a Hn Ha. congruence. }
  split; [|split; [exact Hold|exact Hnew]].
  intros t Ht. apply fold_covers; [auto|]. now apply topic_names_iff.
Qed.

End SimpleCscMethods.

(** ** The further properties on the concrete devices *)

Section MoreInstances.
Import Probe.

Lemma probe_hook_returns (command : Command.t) (m : Method.t) :
  hook_returns command m.
Proof. intros p. exists p. split; reflexivity. Qed.

Lemma probe_update_returns : update_returns.
Proof. intros t p. exists p. reflexivity. Qed.

(** The enable command (parameter 2) sent to a controller in STANDBY. *)
Lemma enable_is_acknowledged_witness :
  let c := online ControllerState.STANDBY in
  let command := Probe.command 1 7 2 in
  (Command.code command ∈ CommandCode_members /\
   get_command_key command = Return (KeyPair 1 2) /\
   command_table !! KeyPair 1 2 = Some Method.do_enable /\
   hook_returns command Method.do_enable /\
   connected c = true /\
   state c = ControllerState.STANDBY) /\
  exists c2,
    read_and_dispatch command c = (Return tt, c2) /\
    state c2 = ControllerState.ENABLED /\
    enabled_substate c2 = STATIONARY.
Proof.
  intros c command.
  assert (H1 : Command.code command ∈ CommandCode_members)
    by (vm_compute; constructor).
  assert (H2 : get_command_key command = Return (KeyPair 1 2)) by reflexivity.
  assert (H3 : command_table !! KeyPair 1 2 = Some Method.do_enable)
    by (vm_compute; reflexivity).
  assert (H4 : hook_returns command Method.do_enable)
    by apply probe_hook_returns.
  assert (H5 : connected c = true) by reflexivity.
  assert (H6 : state c = ControllerState.STANDBY) by reflexivity.
  split; [exact (conj H1 (conj H2 (conj H3 (conj H4 (conj H5 H6)))))|].
  destruct (enable_is_acknowledged command (KeyPair 1 2) c H1 H2 H3 H4 H5 H6)
    as (c2 & Hrd & _ & Hs & He & _).
  exists c2. exact (conj Hrd (conj Hs He)).
Defined.

(** The standby command (parameter 3) sent to a controller in ENABLED. *)
Lemma standby_is_acknowledged_witness :
  let c := online ControllerState.ENABLED in
  let command := Probe.command 1 8 3 in
  (Command.code command ∈ CommandCode_members /\
   get_command_key command = Return (KeyPair 1 3) /\
   command_table !! KeyPair 1 3 = Some Method.do_standby /\
   hook_returns command Method.do_standby /\
   connected c = true /\
   state c = ControllerState.ENABLED) /\
  exists c2,
    read_and_dispatch command c = (Return tt, c2) /\
    state c2 = ControllerState.STANDBY /\
    enabled_substate c2 = 0.
Proof.
  intros c command.
  assert (H1 : Command.code command ∈ CommandCode_members)
    by (vm_compute; constructor).
  assert (H2 : get_command_key command = Return (KeyPair 1 3)) by reflexivity.
  assert (H3 : command_table !! KeyPair 1 3 = Some Method.do_standby)
    by (vm_compute; reflexivity).
  assert (H4 : hook_returns command Method.do_standby)
    by apply probe_hook_returns.
  assert (H5 : connected c = true) by reflexivity.
  assert (H6 : state c = ControllerState.ENABLED) by reflexivity.
  split; [exact (conj H1 (conj H2 (conj H3 (conj H4 (conj H5 H6)))))|].
  destruct (standby_is_acknowledged command (KeyPair 1 3) c H1 H2 H3 H4 H5 H6)
    as (c2 & Hrd & _ & Hs & He & _).
  exists c2. exact (conj Hrd (conj Hs He)).
Defined.

(** Enable with counter 1, then standby with counter 2. *)
Lemma enable_then_standby_witness :
  let c := online ControllerState.STANDBY in
  let enable := Probe.command 1 1 2 in
  let standby := Probe.command 1 2 3 in
  (Command.code enable ∈ CommandCode_members /\
   get_command_key enable = Return (KeyPair 1 2) /\
   command_table !! KeyPair 1 2 = Some Method.do_enable /\
   hook_returns enable Method.do_enable) /\
  (Command.code standby ∈ CommandCode_members /\
   get_command_key standby = Return (KeyPair 1 3) /\
   command_table !! KeyPair 1 3 = Some Method.do_standby /\
   hook_returns standby Method.do_standby) /\
  (connected c = true /\ state c = ControllerState.STANDBY) /\
  exists c2,
    read_loop [enable; standby] c = (Return tt, c2) /\
    state c2 = ControllerState.STANDBY /\ enabled_substate c2 = 0.
Proof.
  intros c enable standby.
  assert (H1 : Command.code enable ∈ CommandCode_members)
    by (vm_compute; constructor).
  assert (H2 : get_command_key enable = Return (KeyPair 1 2)) by reflexivity.
  assert (H3 : command_table !! KeyPair 1 2 = Some Method.do_enable)
    by (vm_compute; reflexivity).
  assert (H4 : hook_returns enable Method.do_enable)
    by apply probe_hook_returns.
  assert (H1' : Command.code standby ∈ CommandCode_members)
    by (vm_compute; constructor).
  assert (H2' : get_command_key standby = Return (KeyPair 1 3)) by reflexivity.
  assert (H3' : command_table !! KeyPair 1 3 = Some Method.do_standby)
    by (vm_compute; reflexivity).
  assert (H4' : hook_returns standby Method.do_standby)
    by apply probe_hook_returns.
  assert (H5 : connected c = true) by reflexivity.
  assert (H6 : state c = ControllerState.STANDBY) by reflexivity.
  split; [exact (conj H1 (conj H2 (conj H3 H4)))|].
  split; [exact (conj H1' (conj H2' (conj H3' H4')))|].
  split; [exact (conj H5 H6)|].
  destruct (enable_then_standby enable standby (KeyPair 1 2) (KeyPair 1 3) c
              H1 H2 H3 H4 H1' H2' H3' H4' H5 H6)
    as (c2 & Hrd & _ & Hs & He).
  exists c2. exact (conj Hrd (conj Hs He)).
Defined.

(** Drives enabled (parameter 1) on the connected controller. *)
Lemma enable_drives_publishes_config_witness :
  let c := online ControllerState.STANDBY in
  let command := Probe.command 3 4 1 in
  connected c = true /\
  exists c' f,
    do_enable_drives command c = (Return None, c') /\
    wire c' = wire c ++ [f] /\
    frame_payload f = ConfigData (Config.mk true).
Proof.
  intros c command.
  assert (H1 : connected c = true) by reflexivity.
  split; [exact H1|].
  destruct (enable_drives_publishes_config command c H1)
    as (c' & f & Hrun & Hw & Hp & _).
  exists c', f. exact (conj Hrun (conj Hw Hp)).
Defined.

(** Drives enabled on a controller no client has connected to. *)
Lemma enable_drives_without_client_witness :
  let c := fresh ControllerState.STANDBY in
  let command := Probe.command 3 4 1 in
  connected c = false /\
  exists c',
    do_enable_drives command c = (Raise (Exception "Not connected"), c') /\
    wire c' = wire c /\
    config (plant c') = Config.mk true.
Proof.
  intros c command.
  assert (H1 : connected c = false) by reflexivity.
  split; [exact H1|].
  destruct (enable_drives_without_client command c H1)
    as (c' & Hrun & Hw & Hp & _).
  exists c'. exact (conj Hrun (conj Hw Hp)).
Defined.

(** The enable-drives command through the dispatcher. *)
Lemma enable_drives_command_writes_config_then_ack_witness :
  let c := online ControllerState.STANDBY in
  let command := Probe.command 3 4 1 in
  (Command.code command ∈ CommandCode_members /\
   get_command_key command = Return (KeyCode 3) /\
   command_table !! KeyCode 3 = Some Method.do_enable_drives /\
   hook_returns command Method.do_enable_drives /\
   connected c = true) /\
  exists c2 f1 f2,
    read_and_dispatch command c = (Return tt, c2) /\
    wire c2 = wire c ++ [f1; f2] /\
    frame_payload f1 = ConfigData (Config.mk true) /\
    frame_payload f2
    = CommandStatusData (CommandStatus.mk CommandStatusCode.ACK 0%Q "").
Proof.
  intros c command.
  assert (H1 : Command.code command ∈ CommandCode_members)
    by (vm_compute; repeat constructor).
  assert (H2 : get_command_key command = Return (KeyCode 3)) by reflexivity.
  assert (H3 : command_table !! KeyCode 3 = Some Method.do_enable_drives)
    by (vm_compute; reflexivity).
  assert (H4 : hook_returns command Method.do_enable_drives)
    by apply probe_hook_returns.
  assert (H5 : connected c = true) by reflexivity.
  split; [exact (conj H1 (conj H2 (conj H3 (conj H4 H5))))|].
  destruct (enable_drives_command_writes_config_then_ack command (KeyCode 3) c
              H1 H2 H3 H4 H5)
    as (c2 & f1 & f2 & Hrd & Hw & Hp1 & Hp2 & _).
  exists c2, f1, f2. exact (conj Hrd (conj Hw (conj Hp1 Hp2))).
Defined.

(** A command dispatched to a controller no client has connected to. *)
Lemma dispatch_without_client_witness :
  let c := fresh ControllerState.STANDBY in
  let command := Probe.command 1 7 2 in
  connected c = false /\
  wire (snd (read_and_dispatch command c)) = wire c /\
  plant (snd (read_and_dispatch command c))
  = plant (snd (run_command command c)).
Proof.
  intros c command.
  assert (H1 : connected c = false) by reflexivity.
  split; [exact H1|].
  destruct (dispatch_without_client command c H1) as (Hw & Hp & _).
  exact (conj Hw Hp).
Defined.

(** The clock of the concrete controller reads 1000.25 s. *)
Lemma header_holds_whole_nanoseconds_witness :
  let c := fresh ControllerState.STANDBY in
  let t := clock c (clock_reads c) in
  let h := headers (snd (update_and_get_header FrameId.CONFIG c))
             FrameId.CONFIG in
  (0 <= t)%Q /\
  nanoseconds h = Qfloor (t * 1000000000).
Proof.
  intros c t h.
  assert (H1 : (0 <= t)%Q) by (vm_compute; discriminate).
  split; [exact H1|].
  exact (proj1 (header_holds_whole_nanoseconds FrameId.CONFIG c H1)).
Defined.

(** Two readings of the concrete clock, 1000.25 s and 1000.35 s. *)
Lemma stamps_follow_the_clock_witness :
  let c := fresh ControllerState.STANDBY in
  let c1 := snd (update_and_get_header FrameId.CONFIG c) in
  let c2 := snd (update_and_get_header FrameId.TELEMETRY c1) in
  ((0 <= clock c (clock_reads c))%Q /\
   (clock c (clock_reads c) <= clock c (S (clock_reads c)))%Q) /\
  nanoseconds (headers c1 FrameId.CONFIG)
  <= nanoseconds (headers c2 FrameId.TELEMETRY).
Proof.
  intros c c1 c2.
  assert (H1 : (0 <= clock c (clock_reads c))%Q)
    by (vm_compute; discriminate).
  assert (H2 : (clock c (clock_reads c) <= clock c (S (clock_reads c)))%Q)
    by (vm_compute; discriminate).
  split; [exact (conj H1 H2)|].
  exact (stamps_follow_the_clock FrameId.CONFIG FrameId.TELEMETRY c H1 H2).
Defined.

(** One round of the loop on the concrete controller. *)
Lemma telemetry_record_follows_update_witness :
  let c := online ControllerState.ENABLED in
  (connected c = true /\
   update_telemetry (clock c (clock_reads c)) (plant c)
   = (Return tt, plant c)) /\
  exists c' f,
    telemetry_tick c = (Return tt, c') /\
    wire c' = wire c ++ [f] /\
    frame_payload f = TelemetryData (telemetry (plant c)).
Proof.
  intros c.
  assert (H1 : connected c = true) by reflexivity.
  assert (H2 : update_telemetry (clock c (clock_reads c)) (plant c)
               = (Return tt, plant c)) by reflexivity.
  split; [exact (conj H1 H2)|].
  destruct (telemetry_record_follows_update c (plant c) H1 H2)
    as (c' & f & Ht & Hw & Hp & _).
  exists c', f. exact (conj Ht (conj Hw Hp)).
Defined.

(** Two undisturbed sleeps, then the client is lost. *)
Lemma telemetry_loop_cadence_witness :
  let c := online ControllerState.STANDBY in
  (update_returns /\ connected c = true) /\
  exists c',
    telemetry_loop (replicate 2 Tick ++ Hangup :: [Tick]) c
    = (Some (Return tt), c') /\
    length (wire c') = (4 + length (wire c))%nat /\
    connected c' = false.
Proof.
  intros c.
  assert (H1 : connected c = true) by reflexivity.
  split; [exact (conj probe_update_returns H1)|].
  destruct (telemetry_loop_cadence 2 [Tick] c probe_update_returns H1)
    as (_ & (c' & Hrun & Hw & Hc & _) & _).
  exists c'. exact (conj Hrun (conj Hw Hc)).
Defined.

(** A connection, a loss, a close and the end of a future. *)
Lemma lifecycle_keeps_the_plant_witness :
  let c := online ControllerState.ENABLED in
  let events := [ClientLost; ClientConnects; CloseClient; FutureEnds 1] in
  Forall lifecycle events /\
  plant (run events c) = plant c /\ wire (run events c) = wire c.
Proof.
  intros c events.
  assert (H1 : Forall lifecycle events) by (repeat constructor).
  split; [exact H1|].
  destruct (lifecycle_keeps_the_plant events c H1) as (Hp & Hw & _).
  exact (conj Hp Hw).
Defined.

End MoreInstances.

Section HarshInstances.
#[local] Existing Instance Harsh.externals.
#[local] Existing Instance Harsh.device.

(** SET_STATE with NaN as its parameter. *)
Lemma unconvertible_parameter_is_rejected_witness :
  let c := Harsh.online ControllerState.STANDBY in
  let command := Harsh.command 1 9 None in
  let msg := "cannot convert float NaN to integer" in
  (Command.code command
   ∈ [CommandCode_SET_STATE; CommandCode_SET_ENABLED_SUBSTATE] /\
   py_int (Command.param1 command) = Raise (Exception msg) /\
   connected c = true) /\
  exists c2,
    read_and_dispatch command c = (Return tt, c2) /\
    statuses (wire c2) =
    statuses (wire c)
    ++ [(Command.counter command,
         CommandStatus.mk CommandStatusCode.NO_ACK 0%Q
           (truncate COMMAND_STATUS_REASON_LEN msg))] /\
    plant c2 = plant c.
Proof.
  intros c command msg.
  assert (H1 : Command.code command
               ∈ [CommandCode_SET_STATE; CommandCode_SET_ENABLED_SUBSTATE])
    by (vm_compute; constructor).
  assert (H2 : py_int (Command.param1 command) = Raise (Exception msg))
    by reflexivity.
  assert (H3 : connected c = true) by reflexivity.
  split; [exact (conj H1 (conj H2 H3))|].
  destruct (unconvertible_parameter_is_rejected command msg c) as [_ Hbad].
  destruct (Hbad H1 H2 H3) as (_ & _ & Hans).
  exact Hans.
Defined.

(** Enable on the device whose hook fails after [do_enable]: NO_ACK, and
    the controller is ENABLED. *)
Lemma failing_hook_is_no_ack_witness :
  let c := Harsh.online ControllerState.STANDBY in
  let command := Harsh.command 1 5 (Some 2) in
  let c0 := set_log (log c ++ [DebugRunCommand command]) c in
  let c1 := snd (call Method.do_enable command c0) in
  let msg := "set position is stuck" in
  (Command.code command ∈ CommandCode_members /\
   get_command_key command = Return (KeyPair 1 2) /\
   command_table !! KeyPair 1 2 = Some Method.do_enable /\
   connected c = true /\
   call Method.do_enable command c0 = (Return None, c1) /\
   end_run_command command Method.do_enable (plant c1)
   = (Raise (Exception msg), plant c1)) /\
  exists c2,
    read_and_dispatch command c = (Return tt, c2) /\
    statuses (wire c2) =
    statuses (wire c)
    ++ [(Command.counter command,
         CommandStatus.mk CommandStatusCode.NO_ACK 0%Q
           (truncate COMMAND_STATUS_REASON_LEN msg))] /\
    plant c2 = plant c1 /\
    Telemetry.state (telemetry (plant c1)) = ControllerState.ENABLED.
Proof.
  intros c command c0 c1 msg.
  assert (H1 : Command.code command ∈ CommandCode_members)
    by (vm_compute; constructor).
  assert (H2 : get_command_key command = Return (KeyPair 1 2)) by reflexivity.
  assert (H3 : command_table !! KeyPair 1 2 = Some Method.do_enable)
    by (vm_compute; reflexivity).
  assert (H4 : connected c = true) by reflexivity.
  assert (Hf : fst (call Method.do_enable command c0) = Return None)
    by (vm_compute; reflexivity).
  assert (H5 : call Method.do_enable command c0 = (Return None, c1))
    by exact (eq_trans (surjective_pairing (call Method.do_enable command c0))
                (f_equal (fun o => (o, c1)) Hf)).
  assert (H6 : end_run_command command Method.do_enable (plant c1)
               = (Raise (Exception msg), plant c1)) by reflexivity.
  assert (H7 : Telemetry.state (telemetry (plant c1)) = ControllerState.ENABLED)
    by (vm_compute; reflexivity).
  split; [exact (conj H1 (conj H2 (conj H3 (conj H4 (conj H5 H6)))))|].
  destruct (failing_hook_is_no_ack command (KeyPair 1 2) Method.do_enable c c1
              None (Exception msg) msg (plant c1) H1 H2 H3 H4 H5 H6
              (or_intror eq_refl))
    as (c2 & _ & Hrd & Hw & Hp).
  exists c2. exact (conj Hrd (conj Hw (conj Hp H7))).
Defined.

(** The loop started at 1000.35 s on the device whose update fails from
    1000.4 s on. *)
Lemma failing_update_ends_publication_witness :
  let c := set_clock_reads 1 (Harsh.online ControllerState.STANDBY) in
  let e := Exception "sensor lost" in
  (connected c = true /\
   update_telemetry (clock c (S (clock_reads c))) (plant c)
   = (Raise e, plant c) /\
   e <> CancelledError) /\
  exists c' f,
    telemetry_loop [Tick; Tick] c = (Some (Return tt), c') /\
    wire c' = wire c ++ [f] /\ is_config f.
Proof.
  intros c e.
  assert (H1 : connected c = true) by reflexivity.
  assert (H2 : update_telemetry (clock c (S (clock_reads c))) (plant c)
               = (Raise e, plant c)) by (vm_compute; reflexivity).
  assert (H3 : e <> CancelledError) by discriminate.
  split; [exact (conj H1 (conj H2 H3))|].
  destruct (failing_update_ends_publication [Tick; Tick] c e (plant c)
              H1 H2 H3) as (c' & f & Hrun & Hw & Hf & _).
  exists c', f. exact (conj Hrun (conj Hw Hf)).
Defined.

End HarshInstances.

(** ** The telemetry loop, round by round *)

Section Publisher.
Context `{Dv : Device}.

(** The first round, when [update_telemetry] raises in it: the [try] ends
    by that exception with the Config record written and nothing else. *)
Lemma first_round_raises (schedule : list Wake) (c : Mock) (e : exn)
  (p' : Plant) :
  connected c = true ->
  update_telemetry (clock c (S (clock_reads c))) (plant c) = (Raise e, p') ->
  exists c2 f,
    telemetry_try schedule
      (snd (log_record (LogInfo "telemetry_loop begins") c))
    = (Some (Raise e), c2) /\
    wire c2 = wire c ++ [f] /\ is_config f /\
    log c2 = log c ++ [LogInfo "telemetry_loop begins"].
Proof.
  intros Hc Hu. unfold telemetry_try.
  set (c0 := snd (log_record (LogInfo "telemetry_loop begins") c)).
  change (connected c0) with (connected c). rewrite Hc.
  assert (Hcfg : connected c0 = true) by exact Hc.
  destruct (write_config_connected c0 Hcfg) as (c1 & f & Hrun & Hw & Hf & Hc1).
  rewrite Hrun.
  assert (Hshape : plant c1 = plant c /\ clock c1 = clock c /\
                   clock_reads c1 = S (clock_reads c) /\
                   log c1 = log c ++ [LogInfo "telemetry_loop begins"]).
  { revert Hrun. run_monad. rewrite Hc. intros Hr. now inversion Hr. }
  destruct Hshape as (Hp1 & Hk1 & Hr1 & Hl1).
  assert (Htick : exists c2,
            telemetry_tick c1 = (Raise e, c2) /\ wire c2 = wire c1 /\
            log c2 = log c1).
  { unfold telemetry_tick. run_monad. rewrite Hk1, Hr1, Hp1, Hu. simpl.
    eexists. split; [reflexivity|]. now split. }
  destruct Htick as (c2 & Ht & Hw2 & Hl2).
  assert (Hwhile : telemetry_while schedule c1 = (Some (Raise e), c2)).
  { destruct schedule; simpl; now rewrite Hc1, Ht. }
  rewrite Hwhile. exists c2, f.
  split; [reflexivity|]. split; [now rewrite Hw2, Hw|].
  split; [exact Hf|]. now rewrite Hl2, Hl1.
Qed.

(** After [n] sleeps that end undisturbed the loop is in its round
    [n + 1], asleep. *)
Lemma loop_asleep (n : nat) (c : Mock) :
  update_returns -> connected c = true ->
  exists c',
    telemetry_loop (replicate n Tick) c = (None, c') /\
    length (wire c') = (S (S n) + length (wire c))%nat /\
    connected c' = true /\
    log c' = log c ++ [LogInfo "telemetry_loop begins"].
Proof.
  intros Hu Hc.
  set (c0 := snd (log_record (LogInfo "telemetry_loop begins") c)).
  assert (Hc0 : connected c0 = true) by exact Hc.
  destruct (telemetry_try_ticks n [] c0 Hu Hc0) as (c1 & Hw & Hc1 & Hl & Htry).
  rewrite app_nil_r in Htry.
  destruct (telemetry_tick_count c1 Hu Hc1) as (c2 & Ht & Hw2 & Hc2 & Hl2).
  cbn [telemetry_while] in Htry. rewrite Hc1, Ht in Htry.
  exists c2. unfold telemetry_loop. fold c0. rewrite Htry.
  split; [reflexivity|]. rewrite Hw2, Hw. split; [reflexivity|].
  split; [exact Hc2|]. now rewrite Hl2, Hl.
Qed.

(** The client is lost during the sleep of round [n + 1]. *)
Lemma loop_hangup (n : nat) (rest : list Wake) (c : Mock) :
  update_returns -> connected c = true ->
  exists c',
    telemetry_loop (replicate n Tick ++ Hangup :: rest) c
    = (Some (Return tt), c') /\
    length (wire c') = (S (S n) + length (wire c))%nat /\
    connected c' = false /\
    log c' = log c ++ [LogInfo "telemetry_loop begins";
                       LogInfo "Socket disconnected"].
Proof.
  intros Hu Hc.
  set (c0 := snd (log_record (LogInfo "telemetry_loop begins") c)).
  assert (Hc0 : connected c0 = true) by exact Hc.
  destruct (telemetry_try_ticks n (Hangup :: rest) c0 Hu Hc0)
    as (c1 & Hw & Hc1 & Hl & Htry).
  destruct (telemetry_tick_count c1 Hu Hc1) as (c2 & Ht & Hw2 & _ & Hl2).
  cbn [telemetry_while] in Htry. rewrite Hc1, Ht in Htry.
  cbn [asyncio_sleep] in Htry. unfold modify in Htry.
  assert (Hoff : telemetry_while rest (set_connected false c2)
                 = (Some (Return tt), set_connected false c2))
    by (destruct rest; reflexivity).
  rewrite Hoff in Htry.
  eexists. unfold telemetry_loop. fold c0. rewrite Htry.
  split; [reflexivity|]. simpl. rewrite Hw2, Hw.
  split; [reflexivity|]. split; [reflexivity|].
  rewrite Hl2, Hl. simpl. now rewrite <- app_assoc.
Qed.

(** The task is cancelled during the sleep of round [n + 1]. *)
Lemma loop_cancelled (n : nat) (rest : list Wake) (c : Mock) :
  update_returns -> connected c = true ->
  exists c',
    telemetry_loop (replicate n Tick ++ Cancel :: rest) c
    = (Some (Raise CancelledError), c') /\
    length (wire c') = (S (S n) + length (wire c))%nat /\
    log c' = log c ++ [LogInfo "telemetry_loop begins"].
Proof.
  intros Hu Hc.
  set (c0 := snd (log_record (LogInfo "telemetry_loop begins") c)).
  assert (Hc0 : connected c0 = true) by exact Hc.
  destruct (telemetry_try_ticks n (Cancel :: rest) c0 Hu Hc0)
    as (c1 & Hw & Hc1 & Hl & Htry).
  destruct (telemetry_tick_count c1 Hu Hc1) as (c2 & Ht & Hw2 & _ & Hl2).
  cbn [telemetry_while] in Htry. rewrite Hc1, Ht in Htry.
  cbn [asyncio_sleep] in Htry. unfold raise in Htry.
  exists c2. unfold telemetry_loop. fold c0. rewrite Htry.
  split; [reflexivity|]. rewrite Hw2, Hw. split; [reflexivity|].
  now rewrite Hl2, Hl.
Qed.

(** The records of a run that began connected, once their number is known:
    the Config record and then that many Telemetry records. *)
Lemma loop_records (schedule : list Wake) (c : Mock) (n : nat) :
  connected c = true ->
  length (wire (snd (telemetry_loop schedule c)))
  = (S (S n) + length (wire c))%nat ->
  exists f tels,
    is_config f /\ Forall is_telemetry tels /\ length tels = S n /\
    wire (snd (telemetry_loop schedule c)) = wire c ++ f :: tels.
Proof.
  intros Hc Hlen.
  destruct (telemetry_loop_shape schedule c) as ((tels & Ht & Hon & _) & _).
  destruct (Hon Hc) as (f & Hf & Hw).
  exists f, tels. split; [exact Hf|]. split; [exact Ht|]. split; [|exact Hw].
  rewrite Hw, length_app in Hlen. simpl in Hlen. lia.
Qed.

(** C8. A run of the telemetry loop against any schedule of wake-ups of its
    sleep (nothing, the loss of the client, the cancellation of the task).

    Whatever [update_telemetry] does: if a client is connected at the start
    the loop writes one Config record first and after it Telemetry records
    only, and if none is connected it writes nothing; the run is still
    asleep, or it has returned, or it has raised [CancelledError], never
    another exception; a cancellation raised inside the [try] is raised
    again, any other exception raised inside it is logged as
    "telemetry_loop failed" and the loop returns, and when the [try] comes
    to its end the loop returns with no client connected.

    On a connected controller, when [update_telemetry] raises in the first
    round: only the Config record has been written; a cancellation is
    raised again with nothing logged for it, and any other exception is
    logged and the loop returns.

    On a connected controller whose [update_telemetry] returns: after [n]
    undisturbed sleeps the loop is asleep with the Config record and
    exactly [n + 1] Telemetry records written; if the client is lost during
    the next sleep the loop returns, disconnected, after logging
    "Socket disconnected"; if the task is cancelled during it the loop
    raises [CancelledError] and logs nothing more; in both cases the same
    records have been written, and the rest of the schedule plays no
    part. *)
Theorem telemetry_loop_publishes (schedule : list Wake) (c : Mock) :
  let c0 := snd (log_record (LogInfo "telemetry_loop begins") c) in
  let r := telemetry_loop schedule c in
  (exists tels,
     Forall is_telemetry tels /\
     (connected c = true ->
      exists f, is_config f /\ wire (snd r) = wire c ++ f :: tels) /\
     (connected c = false -> wire (snd r) = wire c)) /\
  (fst r = None \/ fst r = Some (Return tt) \/
   fst r = Some (Raise CancelledError)) /\
  (forall c1,
     telemetry_try schedule c0 = (Some (Raise CancelledError), c1) ->
     r = (Some (Raise CancelledError), c1)) /\
  (forall e c1,
     telemetry_try schedule c0 = (Some (Raise e), c1) ->
     e <> CancelledError ->
     r = (Some (Return tt),
          set_log (log c1 ++ [LogException "telemetry_loop failed" e]) c1)) /\
  (forall c1,
     telemetry_try schedule c0 = (Some (Return tt), c1) ->
     r = (Some (Return tt), c1) /\ connected c1 = false) /\
  (connected c = true ->
   forall e p',
     update_telemetry (clock c (S (clock_reads c))) (plant c) = (Raise e, p') ->
     (exists f, is_config f /\ wire (snd r) = wire c ++ [f]) /\
     (e = CancelledError ->
      fst r = Some (Raise CancelledError) /\
      log (snd r) = log c ++ [LogInfo "telemetry_loop begins"]) /\
     (e <> CancelledError ->
      fst r = Some (Return tt) /\
      log (snd r) = log c ++ [LogInfo "telemetry_loop begins";
                              LogException "telemetry_loop failed" e])) /\
  (connected c = true -> update_returns ->
   forall n rest,
     (schedule = replicate n Tick ->
      fst r = None /\ connected (snd r) = true /\
      exists f tels,
        is_config f /\ Forall is_telemetry tels /\ length tels = S n /\
        wire (snd r) = wire c ++ f :: tels) /\
     (schedule = replicate n Tick ++ Hangup :: rest ->
      fst r = Some (Return tt) /\ connected (snd r) = false /\
      log (snd r) = log c ++ [LogInfo "telemetry_loop begins";
                              LogInfo "Socket disconnected"] /\
      exists f tels,
        is_config f /\ Forall is_telemetry tels /\ length tels = S n /\
        wire (snd r) = wire c ++ f :: tels) /\
     (schedule = replicate n Tick ++ Cancel :: rest ->
      fst r = Some (Raise CancelledError) /\
      log (snd r) = log c ++ [LogInfo "telemetry_loop begins"] /\
      exists f tels,
        is_config f /\ Forall is_telemetry tels /\ length tels = S n /\
        wire (snd r) = wire c ++ f :: tels)).
Proof.
  intros c0 r.
  destruct (telemetry_loop_shape schedule c) as (H1 & H2 & H3 & H4 & H5).
  split; [exact H1|]. split; [exact H2|]. split; [exact H3|].
  split; [exact H4|]. split; [exact H5|]. split.
  - intros Hc e p' Hu.
    destruct (first_round_raises schedule c e p' Hc Hu)
      as (c2 & f & Htry & Hw & Hf & Hl).
    fold c0 in Htry.
    assert (Hdec : e = CancelledError \/ e <> CancelledError)
      by (destruct e; [right; discriminate|right; discriminate|now left]).
    destruct Hdec as [He|He].
    + subst e. pose proof (H3 c2 Htry) as Hr. fold r in Hr.
      rewrite Hr. cbn [fst snd].
      split; [exists f; now split|].
      split; [intros _; now split|]. intros Hne. now destruct Hne.
    + pose proof (H4 e c2 Htry He) as Hr. fold r in Hr.
      rewrite Hr. cbn [fst snd wire log set_log].
      split; [exists f; now split|].
      split; [intros Heq; contradiction|]. intros _.
      split; [reflexivity|]. rewrite Hl. now rewrite <- app_assoc.
  - intros Hc Hu n rest. split; [|split].
    + intros ->.
      destruct (loop_asleep n c Hu Hc) as (c' & Hrun & Hw & Hc' & _).
      pose proof (loop_records (replicate n Tick) c n Hc) as Hrec.
      unfold r. rewrite Hrun in *. cbn [fst snd] in *.
      split; [reflexivity|]. split; [exact Hc'|]. now apply Hrec.
    + intros ->.
      destruct (loop_hangup n rest c Hu Hc) as (c' & Hrun & Hw & Hc' & Hl).
      pose proof (loop_records (replicate n Tick ++ Hangup :: rest) c n Hc)
        as Hrec.
      unfold r. rewrite Hrun in *. cbn [fst snd] in *.
      split; [reflexivity|]. split; [exact Hc'|]. split; [exact Hl|].
      now apply Hrec.
    + intros ->.
      destruct (loop_cancelled n rest c Hu Hc) as (c' & Hrun & Hw & Hl).
      pose proof (loop_records (replicate n Tick ++ Cancel :: rest) c n Hc)
        as Hrec.
      unfold r. rewrite Hrun in *. cbn [fst snd] in *.
      split; [reflexivity|]. split; [exact Hl|]. now apply Hrec.
Qed.

End Publisher.

Section PublisherInstances.
Import Probe.

(** One undisturbed sleep, then a cancellation: the Config record and two
    Telemetry records, and [CancelledError] raised. *)
Lemma telemetry_loop_publishes_witness :
  let c := online ControllerState.ENABLED in
  let schedule := replicate 1 Tick ++ Cancel :: [Tick] in
  let r := telemetry_loop schedule c in
  (connected c = true /\ update_returns) /\
  fst r = Some (Raise CancelledError) /\
  log (snd r) = log c ++ [LogInfo "telemetry_loop begins"] /\
  exists f tels,
    is_config f /\ Forall is_telemetry tels /\ length tels = 2%nat /\
    wire (snd r) = wire c ++ f :: tels.
Proof.
  intros c schedule r.
  assert (H1 : connected c = true) by reflexivity.
  split; [exact (conj H1 probe_update_returns)|].
  destruct (telemetry_loop_publishes schedule c)
    as (_ & _ & _ & _ & _ & _ & Hrounds).
  destruct (Hrounds H1 probe_update_returns 1%nat [Tick]) as (_ & _ & Hcancel).
  exact (Hcancel eq_refl).
Defined.

End PublisherInstances.
